(** * Travel Memory API (memory_api.py): a shallow embedding and its properties

    The service keeps two module-level dictionaries, [user_profiles] and
    [sessions], and serves them through a handful of request handlers.  The
    embedding follows the source function by function:

    - JSON-like Python objects are the inductive type [value];
    - a Python [dict] is an association list in insertion order (the order is
      observable through [list(user_profiles.keys())]), with the operations of
      module [PyDict];
    - the pydantic models are records with their [.dict()] conversion;
    - a handler is a function from the store to a result and a new store,
      where a result is either the returned object or the raised exception. *)

From Stdlib Require Import String Ascii List ZArith Bool Lia Permutation.
Import ListNotations.
Local Open Scope string_scope.
Set Warnings "-register-all".

(** ** Python objects *)

(** The objects that travel through the handlers: what a JSON body decodes to
    and what a pydantic model serialises to.  A float is kept as its IEEE-754
    binary64 bit pattern; it is only ever stored and echoed back. *)
Inductive value : Type :=
| VNone
| VBool (b : bool)
| VInt (n : Z)
| VFloat (bits : Z)
| VStr (s : string)
| VList (items : list value)
| VDict (entries : list (string * value)).

(** Truth value of an object, as used by [if x:]. *)
Definition truthy (v : value) : bool :=
  match v with
  | VNone => false
  | VBool b => b
  | VInt n => negb (n =? 0)%Z
  | VFloat bits => negb ((bits =? 0)%Z || (bits =? 2 ^ 63)%Z)
  | VStr s => negb (s =? "")
  | VList items => match items with [] => false | _ :: _ => true end
  | VDict entries => match entries with [] => false | _ :: _ => true end
  end.

(** [v == "literal"]: only a string is equal to a string. *)
Definition eq_str (v : value) (lit : string) : bool :=
  match v with
  | VStr s => s =? lit
  | _ => false
  end.

(** ** Python dictionaries *)

Module PyDict.
Section Ops.
Context {A : Type}.

Definition t := list (string * A).

(** [d.get(k)], [None] standing for a missing key. *)
Fixpoint get (k : string) (d : list (string * A)) : option A :=
  match d with
  | [] => None
  | (k', v) :: rest => if k' =? k then Some v else get k rest
  end.

(** [k in d] *)
Definition contains (k : string) (d : list (string * A)) : bool :=
  match get k d with
  | Some _ => true
  | None => false
  end.

(** [d[k] = v]: an existing key keeps its position, a new key goes last. *)
Fixpoint set (k : string) (v : A) (d : list (string * A)) : list (string * A) :=
  match d with
  | [] => [(k, v)]
  | (k', v') :: rest =>
      if k' =? k then (k', v) :: rest else (k', v') :: set k v rest
  end.

(** [d.update(src)]: the entries of [src] are assigned in order. *)
Definition update (d src : list (string * A)) : list (string * A) :=
  fold_left (fun acc kv => set (fst kv) (snd kv) acc) src d.

(** [list(d.keys())] *)
Definition keys (d : list (string * A)) : list string := map fst d.

(** [len(d)] *)
Definition len (d : list (string * A)) : Z := Z.of_nat (length d).

(** A dictionary object never holds a key twice. *)
Definition wf (d : list (string * A)) : Prop := NoDup (keys d).
End Ops.
Arguments t : clear implicits.
End PyDict.

(** ** Results and exceptions *)

Inductive exn : Type :=
| HTTPException (status_code : Z) (detail : string)
| KeyError (key : string)
| AttributeError
| TypeError.

Inductive result (A : Type) : Type :=
| Ok (a : A)
| Raise (e : exn).
Arguments Ok {A} a.
Arguments Raise {A} e.

(** ** Strings *)

Definition newline : string := String (ascii_of_nat 10) "".

(** A Python [str] is kept as its UTF-8 bytes.  [utf8_chars s] cuts it back
    into its characters: a byte in 0x80..0xBF continues the character begun
    before it. *)
Definition is_continuation (c : ascii) : bool :=
  let n := nat_of_ascii c in (128 <=? n)%nat && (n <? 192)%nat.

Fixpoint utf8_chars_aux (s : string) : string * list string :=
  match s with
  | EmptyString => (EmptyString, [])
  | String c rest =>
      let '(pending, chars) := utf8_chars_aux rest in
      if is_continuation c then (String c pending, chars)
      else (EmptyString, String c pending :: chars)
  end.

Definition utf8_chars (s : string) : list string :=
  let '(pending, chars) := utf8_chars_aux s in
  match pending with
  | EmptyString => chars
  | _ => pending :: chars
  end.

(** The items of an iterable handed to [sep.join]: they must all be [str]. *)
Fixpoint str_items (items : list value) : result (list string) :=
  match items with
  | [] => Ok []
  | VStr s :: rest =>
      match str_items rest with
      | Ok l => Ok (s :: l)
      | Raise e => Raise e
      end
  | _ :: _ => Raise TypeError
  end.

(** [sep.join(x)]: a list is joined item by item, a string character by
    character, a dictionary key by key; anything else is not iterable. *)
Definition str_join (sep : string) (x : value) : result string :=
  match x with
  | VList items =>
      match str_items items with
      | Ok l => Ok (String.concat sep l)
      | Raise e => Raise e
      end
  | VStr s => Ok (String.concat sep (utf8_chars s))
  | VDict entries => Ok (String.concat sep (PyDict.keys entries))
  | VNone | VBool _ | VInt _ | VFloat _ => Raise TypeError
  end.

(** ** The pydantic models *)

Definition opt_str (o : option string) : value :=
  match o with Some s => VStr s | None => VNone end.

Definition opt_int (o : option Z) : value :=
  match o with Some n => VInt n | None => VNone end.

Definition str_list (l : list string) : value := VList (map VStr l).

Module UserProfile.
Record t : Type := mk {
  user_id : string;
  name : option string;
  budget_style : option string;
  preferred_transport : option string;
  no_early_flights : bool;
  no_late_nights : bool;
  walking_tolerance : option string;
  food_preferences : list string;
  transport_dislikes : list string;
  accommodation_dislikes : list string;
  typical_hotel_budget : option Z;
  total_trips_booked : Z
}.

(** [profile.dict()] *)
Definition dict (p : t) : PyDict.t value :=
  [ ("user_id", VStr (user_id p));
    ("name", opt_str (name p));
    ("budget_style", opt_str (budget_style p));
    ("preferred_transport", opt_str (preferred_transport p));
    ("no_early_flights", VBool (no_early_flights p));
    ("no_late_nights", VBool (no_late_nights p));
    ("walking_tolerance", opt_str (walking_tolerance p));
    ("food_preferences", str_list (food_preferences p));
    ("transport_dislikes", str_list (transport_dislikes p));
    ("accommodation_dislikes", str_list (accommodation_dislikes p));
    ("typical_hotel_budget", opt_int (typical_hotel_budget p));
    ("total_trips_booked", VInt (total_trips_booked p)) ].
End UserProfile.

Module TripSlots.
Record t : Type := mk {
  destination : option string;
  start_date : option string;
  end_date : option string;
  companions : option string;
  budget_level : option string;
  budget_min : option Z;
  budget_max : option Z;
  intent : option string;
  constraints : list string
}.

(** [TripSlots()] *)
Definition default : t :=
  mk None None None None None None None None [].

Definition dict (s : t) : PyDict.t value :=
  [ ("destination", opt_str (destination s));
    ("start_date", opt_str (start_date s));
    ("end_date", opt_str (end_date s));
    ("companions", opt_str (companions s));
    ("budget_level", opt_str (budget_level s));
    ("budget_min", opt_int (budget_min s));
    ("budget_max", opt_int (budget_max s));
    ("intent", opt_str (intent s));
    ("constraints", str_list (constraints s)) ].
End TripSlots.

Module SessionState.
Record t : Type := mk {
  session_id : string;
  user_id : string;
  trip_slots : TripSlots.t;
  clarifier_count : Z;
  conversation_stage : string
}.

(** [session.dict()]: the nested model is converted as well. *)
Definition dict (s : t) : PyDict.t value :=
  [ ("session_id", VStr (session_id s));
    ("user_id", VStr (user_id s));
    ("trip_slots", VDict (TripSlots.dict (trip_slots s)));
    ("clarifier_count", VInt (clarifier_count s));
    ("conversation_stage", VStr (conversation_stage s)) ].
End SessionState.

(** The entries that [get_assumptions] collects: dictionaries with the two
    keys [text] and [source]. *)
Module Assumption.
Record t : Type := mk {
  text : string;
  source : string
}.

Definition dict (a : t) : PyDict.t value :=
  [ ("text", VStr (text a)); ("source", VStr (source a)) ].
End Assumption.

(** ** The store *)

(** The two module-level dictionaries.  Every object put into them is a
    dictionary: the literal of [init_sample_data], [profile.dict()] or
    [session.dict()]. *)
Record store : Type := mkStore {
  user_profiles : PyDict.t (PyDict.t value);
  sessions : PyDict.t (PyDict.t value)
}.

(** A handler runs on the store and returns an object or raises. *)
Definition handler (A : Type) : Type := store -> result A * store.

Definition ret {A : Type} (a : A) : handler A := fun st => (Ok a, st).

Definition raise {A : Type} (e : exn) : handler A := fun st => (Raise e, st).

Definition bind {A B : Type} (m : handler A) (k : A -> handler B) : handler B :=
  fun st =>
    match m st with
    | (Ok a, st') => k a st'
    | (Raise e, st') => (Raise e, st')
    end.

Definition lift {A : Type} (r : result A) : handler A := fun st => (r, st).

Definition read_user_profiles : handler (PyDict.t (PyDict.t value)) :=
  fun st => (Ok (user_profiles st), st).

Definition read_sessions : handler (PyDict.t (PyDict.t value)) :=
  fun st => (Ok (sessions st), st).

Definition write_user_profiles (d : PyDict.t (PyDict.t value)) : handler unit :=
  fun st => (Ok tt, mkStore d (sessions st)).

Definition write_sessions (d : PyDict.t (PyDict.t value)) : handler unit :=
  fun st => (Ok tt, mkStore (user_profiles st) d).

Declare Scope handler_scope.
Delimit Scope handler_scope with handler.
Notation "x <- m ;; k" := (bind m (fun x => k))
  (at level 61, m at next level, right associativity) : handler_scope.
Notation "m ;;; k" := (bind m (fun _ => k))
  (at level 61, right associativity) : handler_scope.
Local Open Scope handler_scope.

(** ** The handlers *)

(** [init_sample_data()] *)
Definition sample_profile : PyDict.t value :=
  [ ("user_id", VStr "user_demo_123");
    ("name", VStr "Rahul Kumar");
    ("budget_style", VStr "always_budget");
    ("preferred_transport", VStr "train");
    ("no_early_flights", VBool true);
    ("no_late_nights", VBool false);
    ("walking_tolerance", VStr "medium");
    ("food_preferences", VList [VStr "vegetarian"]);
    ("transport_dislikes", VList [VStr "overnight_bus"]);
    ("accommodation_dislikes", VList [VStr "shared_bathroom"]);
    ("typical_hotel_budget", VInt 1200);
    ("total_trips_booked", VInt 5) ].

Definition init_sample_data : handler unit :=
  profiles <- read_user_profiles ;;
  write_user_profiles (PyDict.set "user_demo_123" sample_profile profiles).

(** The store when the module has been loaded: two empty dictionaries, then
    the call of [init_sample_data()]. *)
Definition initial_store : store :=
  snd (init_sample_data (mkStore [] [])).

(** [GET /] *)
Definition root : handler value :=
  ret (VDict
    [ ("message", VStr "Travel Memory API");
      ("version", VStr "1.0.0");
      ("endpoints", VDict
        [ ("profile", VStr "GET /profile/{user_id}");
          ("assumptions", VStr "GET /profile/{user_id}/assumptions");
          ("update_profile", VStr "POST /profile/{user_id}");
          ("session", VStr "GET/POST /session/{session_id}") ]) ]).

(** [GET /profile/{user_id}] *)
Definition default_profile (user_id : string) : PyDict.t value :=
  [ ("user_id", VStr user_id);
    ("name", VNone);
    ("budget_style", VStr "mixed");
    ("preferred_transport", VNone);
    ("no_early_flights", VBool false);
    ("no_late_nights", VBool false);
    ("walking_tolerance", VStr "medium");
    ("food_preferences", VList []);
    ("transport_dislikes", VList []);
    ("accommodation_dislikes", VList []);
    ("typical_hotel_budget", VNone);
    ("total_trips_booked", VInt 0) ].

Definition get_profile (user_id : string) : handler (PyDict.t value) :=
  profiles <- read_user_profiles ;;
  match PyDict.get user_id profiles with
  | None => ret (default_profile user_id)
  | Some profile => ret profile
  end.

(** [POST /profile/{user_id}] *)
Definition update_profile (user_id : string) (profile : UserProfile.t)
  : handler value :=
  profiles <- read_user_profiles ;;
  write_user_profiles (PyDict.set user_id (UserProfile.dict profile) profiles) ;;;
  ret (VDict
    [ ("status", VStr "success");
      ("message", VStr "Profile saved");
      ("user_id", VStr user_id) ]).

(** [profile.get(k)] and [profile.get(k, default)] *)
Definition get_or (default : value) (k : string) (d : PyDict.t value) : value :=
  match PyDict.get k d with
  | Some v => v
  | None => default
  end.

(** [profile[k]] *)
Definition subscript (d : PyDict.t value) (k : string) : result value :=
  match PyDict.get k d with
  | Some v => Ok v
  | None => Raise (KeyError k)
  end.

(** [l.append(x)] *)
Definition append {A : Type} (l : list A) (x : A) : list A := (l ++ [x])%list.

Definition preference (text : string) : Assumption.t :=
  Assumption.mk text "profile_preference".

Definition fallback_text : string :=
  "No previous preferences found. Let's start fresh!".

Section Formatter.
(** [str(v)] for an object that is not a string; the handlers only format
    strings, so the text of other objects is left to the interpreter. *)
Variable py_str : value -> string.

(** What [f"{v}"] inserts. *)
Definition format_value (v : value) : string :=
  match v with
  | VStr s => s
  | _ => py_str v
  end.

(** The body of [get_assumptions] between the profile lookup and the
    response: the list [assumptions] after the seven blocks of appends. *)
Definition collect_assumptions (profile : PyDict.t value)
  : result (list Assumption.t) :=
  let assumptions := [] in
  (* Transport timing *)
  let assumptions :=
    if truthy (get_or VNone "no_early_flights" profile)
    then append assumptions (preference "I'll avoid early morning departures")
    else assumptions in
  let assumptions :=
    if truthy (get_or VNone "no_late_nights" profile)
    then append assumptions (preference "I'll avoid late night travel")
    else assumptions in
  (* Transport preference *)
  match
    (if truthy (get_or VNone "preferred_transport" profile)
     then match subscript profile "preferred_transport" with
          | Ok v =>
              Ok (append assumptions
                    (preference
                       ("Prioritizing " ++ format_value v ++ " when possible")))
          | Raise e => Raise e
          end
     else Ok assumptions)
  with
  | Raise e => Raise e
  | Ok assumptions =>
  (* Budget style *)
  let budget_style := get_or VNone "budget_style" profile in
  let assumptions :=
    if eq_str budget_style "always_budget"
    then append assumptions (preference "Budget hotels (₹800-1500/night)")
    else if eq_str budget_style "mid_range"
    then append assumptions (preference "Mid-range hotels (₹2000-4000/night)")
    else if eq_str budget_style "luxury"
    then append assumptions (preference "Premium hotels (₹5000+/night)")
    else assumptions in
  (* Walking tolerance *)
  let walking := get_or VNone "walking_tolerance" profile in
  let assumptions :=
    if eq_str walking "low"
    then append assumptions (preference "Minimizing walking (max 2km/day)")
    else if eq_str walking "high"
    then append assumptions (preference "Comfortable with long walks (5-8km/day)")
    else assumptions in
  (* Food preferences *)
  let food_prefs := get_or (VList []) "food_preferences" profile in
  match
    (if truthy food_prefs
     then match str_join ", " food_prefs with
          | Ok joined =>
              Ok (append assumptions
                    (preference ("Food preferences: " ++ joined)))
          | Raise e => Raise e
          end
     else Ok assumptions)
  with
  | Raise e => Raise e
  | Ok assumptions =>
  (* Transport dislikes *)
  let transport_dislikes := get_or (VList []) "transport_dislikes" profile in
  if truthy transport_dislikes
  then match str_join ", " transport_dislikes with
       | Ok joined =>
           Ok (append assumptions (preference ("Avoiding: " ++ joined)))
       | Raise e => Raise e
       end
  else Ok assumptions
  end end.

(** The response built from the collected list. *)
Definition assumptions_response (user_id : string)
    (assumptions : list Assumption.t) : value :=
  match assumptions with
  | _ :: _ =>
      let formatted_text :=
        String.concat newline
          (map (fun a => "• " ++ Assumption.text a) assumptions) in
      VDict
        [ ("user_id", VStr user_id);
          ("has_assumptions", VBool true);
          ("count", VInt (Z.of_nat (length assumptions)));
          ("assumptions",
            VList (map (fun a => VDict (Assumption.dict a)) assumptions));
          ("formatted_text", VStr formatted_text) ]
  | [] =>
      VDict
        [ ("user_id", VStr user_id);
          ("has_assumptions", VBool false);
          ("count", VInt 0);
          ("assumptions", VList []);
          ("formatted_text", VStr fallback_text) ]
  end.

(** [GET /profile/{user_id}/assumptions] *)
Definition get_assumptions (user_id : string) : handler value :=
  profile <- get_profile user_id ;;
  assumptions <- lift (collect_assumptions profile) ;;
  ret (assumptions_response user_id assumptions).
End Formatter.

(** [POST /session] *)
Definition update_session (session : SessionState.t) : handler value :=
  ss <- read_sessions ;;
  write_sessions
    (PyDict.set (SessionState.session_id session) (SessionState.dict session) ss) ;;;
  ret (VDict
    [ ("status", VStr "success");
      ("message", VStr "Session saved");
      ("session_id", VStr (SessionState.session_id session)) ]).

(** [GET /session/{session_id}] *)
Definition default_session (session_id : string) : PyDict.t value :=
  [ ("session_id", VStr session_id);
    ("user_id", VNone);
    ("trip_slots", VDict []);
    ("clarifier_count", VInt 0);
    ("conversation_stage", VStr "clarifying") ].

Definition get_session (session_id : string) : handler (PyDict.t value) :=
  ss <- read_sessions ;;
  match PyDict.get session_id ss with
  | None => ret (default_session session_id)
  | Some session => ret session
  end.

(** [POST /session/{session_id}/slots].  [session["trip_slots"]] raises
    [KeyError] on a missing key and [.update] exists on dictionaries only;
    the stored session is changed in place, which in the store reads as
    putting the changed session back under its key. *)
Definition update_trip_slots (session_id : string) (slots : PyDict.t value)
  : handler value :=
  ss <- read_sessions ;;
  match PyDict.get session_id ss with
  | None => raise (HTTPException 404 "Session not found")
  | Some session =>
      match PyDict.get "trip_slots" session with
      | None => raise (KeyError "trip_slots")
      | Some (VDict trip_slots) =>
          let session :=
            PyDict.set "trip_slots" (VDict (PyDict.update trip_slots slots))
              session in
          write_sessions (PyDict.set session_id session ss) ;;;
          ret (VDict
            [ ("status", VStr "success");
              ("session_id", VStr session_id);
              ("updated_slots", VDict slots) ])
      | Some _ => raise AttributeError
      end
  end.

(** [GET /debug/users] *)
Definition list_users : handler value :=
  profiles <- read_user_profiles ;;
  ret (VDict
    [ ("count", VInt (PyDict.len profiles));
      ("users", VList (map VStr (PyDict.keys profiles))) ]).

(** [POST /debug/reset] *)
Definition reset_data : handler value :=
  write_user_profiles [] ;;;
  write_sessions [] ;;;
  init_sample_data ;;;
  ret (VDict
    [ ("status", VStr "success");
      ("message", VStr "All data reset, sample user restored") ]).

(** [GET /health]; [now] is [datetime.now().isoformat()], read from the clock
    and so an input of the call. *)
Definition health (now : string) : handler value :=
  profiles <- read_user_profiles ;;
  ss <- read_sessions ;;
  ret (VDict
    [ ("status", VStr "healthy");
      ("timestamp", VStr now);
      ("users_count", VInt (PyDict.len profiles));
      ("sessions_count", VInt (PyDict.len ss)) ]).

(** ** The service as a whole *)

Inductive request : Type :=
| Root
| GetProfile (user_id : string)
| UpdateProfile (user_id : string) (profile : UserProfile.t)
| GetAssumptions (user_id : string)
| UpdateSession (session : SessionState.t)
| GetSession (session_id : string)
| UpdateTripSlots (session_id : string) (slots : PyDict.t value)
| ListUsers
| ResetData
| Health (now : string).

(** The route table. *)
Definition handle (py_str : value -> string) (req : request) : handler value :=
  match req with
  | Root => root
  | GetProfile user_id => profile <- get_profile user_id ;; ret (VDict profile)
  | UpdateProfile user_id profile => update_profile user_id profile
  | GetAssumptions user_id => get_assumptions py_str user_id
  | UpdateSession session => update_session session
  | GetSession session_id => session <- get_session session_id ;; ret (VDict session)
  | UpdateTripSlots session_id slots => update_trip_slots session_id slots
  | ListUsers => list_users
  | ResetData => reset_data
  | Health now => health now
  end.

(** The status line of the answer: an [HTTPException] carries its own code,
    any other exception ends in a server error. *)
Definition http_status (r : result value) : Z :=
  match r with
  | Ok _ => 200
  | Raise (HTTPException status_code _) => status_code
  | Raise _ => 500
  end.

(** The store after a sequence of requests served one after the other. *)
Definition run (py_str : value -> string) (reqs : list request) (st : store)
  : store :=
  fold_left (fun st req => snd (handle py_str req st)) reqs st.

(** The stores the service can be in: the one at start-up and every store a
    request leaves behind. *)
Inductive reachable (py_str : value -> string) : store -> Prop :=
| reachable_start : reachable py_str initial_store
| reachable_step st req :
    reachable py_str st -> reachable py_str (snd (handle py_str req st)).

Definition is_read (req : request) : bool :=
  match req with
  | GetProfile _ | GetSession _ => true
  | _ => false
  end.

(** A stored session on which the slot merge can run. *)
Definition session_shape (session : PyDict.t value) : Prop :=
  exists trip_slots, PyDict.get "trip_slots" session = Some (VDict trip_slots).

(** A stored profile that is the dictionary of a model object. *)
Definition is_profile_dict (d : PyDict.t value) : Prop :=
  exists p, d = UserProfile.dict p.

(** What every store of the running service satisfies. *)
Definition store_invariant (st : store) : Prop :=
  (forall k d, PyDict.get k (user_profiles st) = Some d -> is_profile_dict d)
  /\ (forall k d, PyDict.get k (sessions st) = Some d -> session_shape d).

(** ** The formatter as the specification words it *)

Module Spec.
Import UserProfile.

Definition is_set (o : option string) : bool :=
  match o with
  | Some s => negb (s =? "")
  | None => false
  end.

Definition is_one_of (o : option string) (choices : list string) : bool :=
  match o with
  | Some s => existsb (String.eqb s) choices
  | None => false
  end.

Definition budget_sentence (o : option string) : string :=
  match o with
  | Some "always_budget" => "Budget hotels (₹800-1500/night)"
  | Some "mid_range" => "Mid-range hotels (₹2000-4000/night)"
  | _ => "Premium hotels (₹5000+/night)"
  end.

Definition walking_sentence (o : option string) : string :=
  match o with
  | Some "low" => "Minimizing walking (max 2km/day)"
  | _ => "Comfortable with long walks (5-8km/day)"
  end.

Definition nonempty (l : list string) : bool :=
  match l with [] => false | _ :: _ => true end.

(** The seven rules in their priority order: the condition under which the
    rule fires, and its sentence. *)
Definition rules (p : UserProfile.t) : list (bool * string) :=
  [ (no_early_flights p, "I'll avoid early morning departures");
    (no_late_nights p, "I'll avoid late night travel");
    (is_set (preferred_transport p),
      "Prioritizing "
        ++ match preferred_transport p with Some s => s | None => "" end
        ++ " when possible");
    (is_one_of (budget_style p) ["always_budget"; "mid_range"; "luxury"],
      budget_sentence (budget_style p));
    (is_one_of (walking_tolerance p) ["low"; "high"],
      walking_sentence (walking_tolerance p));
    (nonempty (food_preferences p),
      "Food preferences: " ++ String.concat ", " (food_preferences p));
    (nonempty (transport_dislikes p),
      "Avoiding: " ++ String.concat ", " (transport_dislikes p)) ].

(** The rules that fire, in order, each with the one source kind. *)
Definition assumptions (p : UserProfile.t) : list Assumption.t :=
  map (fun r => Assumption.mk (snd r) "profile_preference")
      (filter fst (rules p)).

(** The bullet list, or the fallback when there is nothing to list. *)
Definition formatted_text (l : list Assumption.t) : string :=
  match l with
  | [] => "No previous preferences found. Let's start fresh!"
  | _ => String.concat newline (map (fun a => "• " ++ Assumption.text a) l)
  end.
End Spec.

(** The profile that [get_profile] makes up for an unknown user, as a model
    object. *)
Definition default_UserProfile (user_id : string) : UserProfile.t :=
  UserProfile.mk user_id None (Some "mixed") None false false (Some "medium")
    [] [] [] None 0.

Definition sample_UserProfile : UserProfile.t :=
  UserProfile.mk "user_demo_123" (Some "Rahul Kumar") (Some "always_budget")
    (Some "train") true false (Some "medium") ["vegetarian"] ["overnight_bus"]
    ["shared_bathroom"] (Some 1200%Z) 5.

(** ** Further notions for the properties of the handlers *)

(** The requests served by a [GET] route. *)
Definition is_get (req : request) : bool :=
  match req with
  | Root | GetProfile _ | GetAssumptions _ | GetSession _ | ListUsers
  | Health _ => true
  | UpdateProfile _ _ | UpdateSession _ | UpdateTripSlots _ _ | ResetData => false
  end.

(** A session as the running service keeps it under the key [session_id]:
    the dictionary of a session posted under that key, with the slots as
    merged since then in the place of its [trip_slots]; the merged slots
    still have every key of the posted ones. *)
Definition stored_session (session_id : string) (session : PyDict.t value)
  : Prop :=
  exists s trip_slots,
    SessionState.session_id s = session_id
    /\ session = PyDict.set "trip_slots" (VDict trip_slots) (SessionState.dict s)
    /\ incl (PyDict.keys (TripSlots.dict (SessionState.trip_slots s)))
             (PyDict.keys trip_slots).

(** What holds of the two dictionaries as wholes in the running service. *)
Definition service_invariant (st : store) : Prop :=
  PyDict.wf (user_profiles st)
  /\ PyDict.wf (sessions st)
  /\ PyDict.contains "user_demo_123" (user_profiles st) = true
  /\ (forall session_id session,
        PyDict.get session_id (sessions st) = Some session ->
        stored_session session_id session).

(** At most [n] assumptions, all from the profile. *)
Definition bounded (n : nat) (l : list Assumption.t) : Prop :=
  (length l <= n)%nat
  /\ Forall (fun a => Assumption.source a = "profile_preference") l.

(** * Properties *)

(** ** Dictionaries *)

Module PyDictFacts.
Section Facts.
Context {A : Type}.
Implicit Types (d src : list (string * A)) (k : string) (v : A).

Lemma get_set_eq k v d : PyDict.get k (PyDict.set k v d) = Some v.
Proof.
  induction d as [|[k' v'] rest IH]; simpl.
  - now rewrite String.eqb_refl.
  - destruct (k' =? k) eqn:E; simpl; rewrite E; [reflexivity | exact IH].
Qed.

Lemma get_set_ne k k' v d :
  k <> k' -> PyDict.get k' (PyDict.set k v d) = PyDict.get k' d.
Proof.
  intros Hne. induction d as [|[k0 v0] rest IH]; simpl.
  - apply String.eqb_neq in Hne. now rewrite Hne.
  - destruct (k0 =? k) eqn:E; simpl.
    + apply String.eqb_eq in E. subst k0.
      apply String.eqb_neq in Hne. now rewrite Hne.
    + destruct (k0 =? k'); [reflexivity | exact IH].
Qed.

Lemma contains_set_eq k v d : PyDict.contains k (PyDict.set k v d) = true.
Proof. unfold PyDict.contains. now rewrite get_set_eq. Qed.

Lemma contains_set_ne k k' v d :
  k <> k' -> PyDict.contains k' (PyDict.set k v d) = PyDict.contains k' d.
Proof. intros H. unfold PyDict.contains. now rewrite get_set_ne. Qed.

Lemma get_none_keys k d : PyDict.get k d = None <-> ~ In k (PyDict.keys d).
Proof.
  induction d as [|[k' v'] rest IH]; simpl.
  - tauto.
  - destruct (k' =? k) eqn:E.
    + apply String.eqb_eq in E. split; [discriminate | tauto].
    + apply String.eqb_neq in E. rewrite IH. tauto.
Qed.

Lemma get_some_in k v d : PyDict.get k d = Some v -> In (k, v) d.
Proof.
  induction d as [|[k' v'] rest IH]; simpl; [discriminate|].
  destruct (k' =? k) eqn:E.
  - apply String.eqb_eq in E. intros [= ->]. subst. now left.
  - intros H. right. now apply IH.
Qed.

Lemma in_get_some k v d :
  PyDict.wf d -> In (k, v) d -> PyDict.get k d = Some v.
Proof.
  unfold PyDict.wf.
  induction d as [|[k' v'] rest IH]; simpl; [tauto|].
  intros Hnd [Heq | Hin].
  - injection Heq as -> ->. now rewrite String.eqb_refl.
  - inversion Hnd as [|? ? Hnotin Hnd']; subst.
    destruct (k' =? k) eqn:E.
    + apply String.eqb_eq in E. subst k'.
      exfalso. apply Hnotin. change k with (fst (k, v)). now apply in_map.
    + now apply IH.
Qed.

(** The keys after an assignment: unchanged for a key already there, one
    more at the end otherwise. *)
Lemma keys_set k v d :
  PyDict.keys (PyDict.set k v d) =
  if PyDict.contains k d then PyDict.keys d else (PyDict.keys d ++ [k])%list.
Proof.
  unfold PyDict.contains.
  induction d as [|[k' v'] rest IH]; simpl; [reflexivity|].
  destruct (k' =? k) eqn:E; simpl; [reflexivity|].
  rewrite IH. now destruct (PyDict.get k rest).
Qed.

Lemma wf_set k v d : PyDict.wf d -> PyDict.wf (PyDict.set k v d).
Proof.
  unfold PyDict.wf. intros Hnd. rewrite keys_set.
  unfold PyDict.contains. destruct (PyDict.get k d) eqn:E; [exact Hnd|].
  apply get_none_keys in E.
  apply NoDup_app; [exact Hnd | constructor; [tauto | constructor] |].
  intros x Hx [<- | []]. now apply E.
Qed.

Lemma get_update_notin k d src :
  PyDict.get k src = None ->
  PyDict.get k (PyDict.update d src) = PyDict.get k d.
Proof.
  unfold PyDict.update. revert d.
  induction src as [|[k' v'] rest IH]; intros d; simpl; [reflexivity|].
  destruct (k' =? k) eqn:E; [discriminate|].
  intros H. rewrite (IH _ H). apply get_set_ne. now apply String.eqb_neq.
Qed.

Lemma get_update_in k v d src :
  PyDict.wf src ->
  PyDict.get k src = Some v ->
  PyDict.get k (PyDict.update d src) = Some v.
Proof.
  unfold PyDict.wf, PyDict.update. revert d.
  induction src as [|[k' v'] rest IH]; intros d Hnd; simpl; [discriminate|].
  inversion Hnd as [|? ? Hnotin Hnd']; subst.
  destruct (k' =? k) eqn:E.
  - apply String.eqb_eq in E. subst k'. intros [= ->].
    apply get_none_keys in Hnotin.
    pose proof (get_update_notin k (PyDict.set k v d) rest Hnotin) as H.
    unfold PyDict.update in H. rewrite H. apply get_set_eq.
  - intros H. now apply IH.
Qed.

Lemma wf_update d src : PyDict.wf d -> PyDict.wf (PyDict.update d src).
Proof.
  unfold PyDict.update. revert d.
  induction src as [|[k' v'] rest IH]; intros d Hd; simpl; [exact Hd|].
  apply IH. now apply wf_set.
Qed.

(** Reading a dictionary does not depend on the order of its entries. *)
Lemma get_permutation k d d' :
  PyDict.wf d -> Permutation d d' -> PyDict.get k d' = PyDict.get k d.
Proof.
  intros Hwf Hperm.
  assert (Hwf' : PyDict.wf d').
  { unfold PyDict.wf, PyDict.keys in *.
    eapply Permutation_NoDup; [apply Permutation_map; exact Hperm | exact Hwf]. }
  destruct (PyDict.get k d) as [v|] eqn:E.
  - apply in_get_some; [exact Hwf'|].
    eapply Permutation_in; [exact Hperm|]. now apply get_some_in.
  - apply get_none_keys. apply get_none_keys in E. intros Hin. apply E.
    unfold PyDict.keys in *.
    eapply Permutation_in; [apply Permutation_map, Permutation_sym; exact Hperm|].
    exact Hin.
Qed.
End Facts.
End PyDictFacts.

(** ** Serialisation of the models *)

Lemma opt_str_inj o o' : opt_str o = opt_str o' -> o = o'.
Proof. destruct o, o'; simpl; congruence. Qed.

Lemma opt_int_inj o o' : opt_int o = opt_int o' -> o = o'.
Proof. destruct o, o'; simpl; congruence. Qed.

Lemma map_VStr_inj l l' : map VStr l = map VStr l' -> l = l'.
Proof.
  revert l'.
  induction l as [|s l IH]; intros [|s' l']; simpl; try discriminate.
  - reflexivity.
  - intros [= -> H]. f_equal. now apply IH.
Qed.

(** [profile.dict()] loses nothing of the profile. *)
Lemma UserProfile_dict_inj p q : UserProfile.dict p = UserProfile.dict q -> p = q.
Proof.
  destruct p, q. unfold UserProfile.dict. simpl.
  intros [= H1 H2 H3 H4 H5 H6 H7 H8 H9 H10 H11 H12].
  apply opt_str_inj in H2, H3, H4, H7.
  apply map_VStr_inj in H8, H9, H10.
  apply opt_int_inj in H11.
  now subst.
Qed.

Lemma UserProfile_dict_wf p : PyDict.wf (UserProfile.dict p).
Proof.
  unfold PyDict.wf, UserProfile.dict. simpl.
  repeat (constructor; [simpl; intuition discriminate|]). constructor.
Qed.

Lemma default_profile_dict user_id :
  default_profile user_id = UserProfile.dict (default_UserProfile user_id).
Proof. reflexivity. Qed.

Lemma sample_profile_dict : sample_profile = UserProfile.dict sample_UserProfile.
Proof. reflexivity. Qed.

(** ** Running handlers *)

Ltac unfold_handlers :=
  unfold handle, run, root, get_profile, update_profile, get_assumptions,
    update_session, get_session, update_trip_slots, list_users, reset_data,
    health, init_sample_data, bind, ret, raise, lift, read_user_profiles,
    read_sessions, write_user_profiles, write_sessions in *;
  simpl in *.

Lemma get_profile_frame user_id st : snd (get_profile user_id st) = st.
Proof. unfold_handlers. now destruct (PyDict.get user_id (user_profiles st)). Qed.

Lemma get_session_frame session_id st : snd (get_session session_id st) = st.
Proof. unfold_handlers. now destruct (PyDict.get session_id (sessions st)). Qed.

Lemma get_profile_ok user_id st : exists d, get_profile user_id st = (Ok d, st).
Proof.
  unfold_handlers. destruct (PyDict.get user_id (user_profiles st)); eauto.
Qed.

Lemma get_session_ok session_id st : exists d, get_session session_id st = (Ok d, st).
Proof.
  unfold_handlers. destruct (PyDict.get session_id (sessions st)); eauto.
Qed.

Lemma contains_false_get {A : Type} k (d : list (string * A)) :
  PyDict.contains k d = false -> PyDict.get k d = None.
Proof. unfold PyDict.contains. now destruct (PyDict.get k d). Qed.

(** ** Profiles: write then read *)

(** C1: after [POST /profile/{user_id}] with profile [p], an immediate
    [GET /profile/{user_id}] returns the dictionary of [p], and that
    dictionary determines [p]: the value read back is equal to the one
    written.  The write itself always succeeds. *)
Theorem get_profile_after_update_profile (user_id : string) (p : UserProfile.t)
    (st : store) :
  let st' := snd (update_profile user_id p st) in
  (exists response, fst (update_profile user_id p st) = Ok response)
  /\ get_profile user_id st' = (Ok (UserProfile.dict p), st')
  /\ (forall q, UserProfile.dict q = UserProfile.dict p -> q = p).
Proof.
  split; [|split].
  - unfold_handlers. eauto.
  - unfold_handlers. now rewrite PyDictFacts.get_set_eq.
  - intros q. apply UserProfile_dict_inj.
Qed.

(** C9: the key of the stored profile is the [user_id] of the path, whatever
    the [user_id] inside the body says.  With a body whose [user_id] differs
    from the path's, the profile read back under the path's key is the body
    as it was sent, its own [user_id] included, and the body's [user_id] is a
    key of the store after the call exactly when it was one before. *)
Theorem update_profile_keyed_by_path (path_id : string) (p : UserProfile.t)
    (st : store) (Hdiff : UserProfile.user_id p <> path_id) :
  let st' := snd (update_profile path_id p st) in
  get_profile path_id st' = (Ok (UserProfile.dict p), st')
  /\ PyDict.get "user_id" (UserProfile.dict p) = Some (VStr (UserProfile.user_id p))
  /\ PyDict.get (UserProfile.user_id p) (user_profiles st')
     = PyDict.get (UserProfile.user_id p) (user_profiles st)
  /\ PyDict.contains path_id (user_profiles st') = true.
Proof.
  split; [|split; [|split]].
  - unfold_handlers. now rewrite PyDictFacts.get_set_eq.
  - reflexivity.
  - unfold_handlers. apply PyDictFacts.get_set_ne. congruence.
  - unfold_handlers. apply PyDictFacts.contains_set_eq.
Qed.

Lemma update_profile_keyed_by_path_witness :
  get_profile "alice"
    (snd (update_profile "alice" (default_UserProfile "bob") initial_store))
  = (Ok (UserProfile.dict (default_UserProfile "bob")),
     snd (update_profile "alice" (default_UserProfile "bob") initial_store))
  /\ PyDict.get "bob"
       (user_profiles
          (snd (update_profile "alice" (default_UserProfile "bob") initial_store)))
     = None.
Proof.
  assert (Hdiff : UserProfile.user_id (default_UserProfile "bob") <> "alice")
    by (simpl; discriminate).
  destruct (update_profile_keyed_by_path "alice" (default_UserProfile "bob")
              initial_store Hdiff) as (Hget & _ & Hkey & _).
  split; [exact Hget|].
  etransitivity; [exact Hkey | reflexivity].
Defined.

(** ** Reads *)

(** C2: a [GET /profile/{user_id}] for a key that is not in [user_profiles]
    answers with the fixed default profile and leaves the store as it was; a
    [GET /session/{session_id}] for a key that is not in [sessions] answers
    with the default session and leaves the store as it was.  Neither read
    raises, whatever the store and the key. *)
Theorem reads_of_missing_keys (py_str : value -> string) (st : store)
    (user_id session_id : string)
    (Huser : PyDict.contains user_id (user_profiles st) = false)
    (Hsession : PyDict.contains session_id (sessions st) = false) :
  handle py_str (GetProfile user_id) st =
    (Ok (VDict
       [ ("user_id", VStr user_id);
         ("name", VNone);
         ("budget_style", VStr "mixed");
         ("preferred_transport", VNone);
         ("no_early_flights", VBool false);
         ("no_late_nights", VBool false);
         ("walking_tolerance", VStr "medium");
         ("food_preferences", VList []);
         ("transport_dislikes", VList []);
         ("accommodation_dislikes", VList []);
         ("typical_hotel_budget", VNone);
         ("total_trips_booked", VInt 0) ]), st)
  /\ handle py_str (GetSession session_id) st =
    (Ok (VDict
       [ ("session_id", VStr session_id);
         ("user_id", VNone);
         ("trip_slots", VDict []);
         ("clarifier_count", VInt 0);
         ("conversation_stage", VStr "clarifying") ]), st)
  /\ (forall st0 id, exists response,
        handle py_str (GetProfile id) st0 = (Ok response, st0))
  /\ (forall st0 id, exists response,
        handle py_str (GetSession id) st0 = (Ok response, st0)).
Proof.
  apply contains_false_get in Huser, Hsession.
  repeat split.
  - unfold_handlers. now rewrite Huser.
  - unfold_handlers. now rewrite Hsession.
  - intros st0 id. unfold_handlers.
    destruct (PyDict.get id (user_profiles st0)); eauto.
  - intros st0 id. unfold_handlers.
    destruct (PyDict.get id (sessions st0)); eauto.
Qed.

Lemma reads_of_missing_keys_witness :
  fst (handle (fun _ => "") (GetProfile "nobody") initial_store)
    = Ok (VDict (default_profile "nobody"))
  /\ snd (handle (fun _ => "") (GetSession "s1") initial_store) = initial_store.
Proof.
  destruct (reads_of_missing_keys (fun _ => "") initial_store "nobody" "s1"
              eq_refl eq_refl) as (Hp & Hs & _).
  rewrite Hp, Hs. split; reflexivity.
Defined.

(** C8: a sequence of [GET /profile/...] and [GET /session/...] requests
    leaves both dictionaries as they were, so the listing of the users, the
    two counts and the answer to any later request are what they would have
    been without the reads. *)
Theorem reads_leave_store (py_str : value -> string) (reqs : list request)
    (st : store) (Hreads : forallb is_read reqs = true) :
  run py_str reqs st = st
  /\ user_profiles (run py_str reqs st) = user_profiles st
  /\ sessions (run py_str reqs st) = sessions st
  /\ fst (list_users (run py_str reqs st)) = fst (list_users st)
  /\ (forall now, fst (health now (run py_str reqs st)) = fst (health now st))
  /\ (forall req, fst (handle py_str req (run py_str reqs st))
                  = fst (handle py_str req st)).
Proof.
  assert (Hrun : run py_str reqs st = st).
  { revert st. induction reqs as [|req reqs IH]; intros st; [reflexivity|].
    simpl in Hreads. apply andb_prop in Hreads as [Hreq Hrest].
    change (run py_str (req :: reqs) st)
      with (run py_str reqs (snd (handle py_str req st))).
    replace (snd (handle py_str req st)) with st; [now apply IH|].
    destruct req; try discriminate; simpl.
    - destruct (get_profile_ok user_id st) as [d Hd].
      unfold bind, ret. now rewrite Hd.
    - destruct (get_session_ok session_id st) as [d Hd].
      unfold bind, ret. now rewrite Hd. }
  rewrite Hrun. repeat split; reflexivity.
Qed.

Lemma reads_leave_store_witness :
  run (fun _ => "")
    [GetProfile "user_demo_123"; GetSession "s1"; GetProfile "nobody"]
    initial_store = initial_store.
Proof.
  apply (reads_leave_store (fun _ => "")
           [GetProfile "user_demo_123"; GetSession "s1"; GetProfile "nobody"]
           initial_store eq_refl).
Defined.

(** ** Reset *)

(** C5: [POST /debug/reset] leaves exactly one profile, under the key
    [user_demo_123], and no session; reading that profile back gives the
    seed values. *)
Theorem reset_data_restores_sample (st : store) :
  let seed :=
    UserProfile.dict
      (UserProfile.mk "user_demo_123" (Some "Rahul Kumar")
         (Some "always_budget") (Some "train") true false (Some "medium")
         ["vegetarian"] ["overnight_bus"] ["shared_bathroom"] (Some 1200%Z) 5) in
  let st' := snd (reset_data st) in
  (exists response, fst (reset_data st) = Ok response)
  /\ user_profiles st' = [("user_demo_123", seed)]
  /\ sessions st' = []
  /\ get_profile "user_demo_123" st' = (Ok seed, st').
Proof.
  repeat split. unfold_handlers. eauto.
Qed.

(** ** The assumption formatter *)

Lemma str_items_strings l : str_items (map VStr l) = Ok l.
Proof. induction l as [|s l IH]; simpl; [reflexivity | now rewrite IH]. Qed.

Lemma str_join_strings sep l : str_join sep (str_list l) = Ok (String.concat sep l).
Proof. unfold str_join, str_list. now rewrite str_items_strings. Qed.

Lemma truthy_str_list l : truthy (str_list l) = Spec.nonempty l.
Proof. now destruct l. Qed.

Lemma truthy_opt_str o : truthy (opt_str o) = Spec.is_set o.
Proof. now destruct o. Qed.

(** The budget block appends the sentence of a recognised style and nothing
    for any other value. *)
Lemma budget_block (o : option string) (l : list Assumption.t) :
  (if eq_str (opt_str o) "always_budget"
   then append l (preference "Budget hotels (₹800-1500/night)")
   else if eq_str (opt_str o) "mid_range"
   then append l (preference "Mid-range hotels (₹2000-4000/night)")
   else if eq_str (opt_str o) "luxury"
   then append l (preference "Premium hotels (₹5000+/night)")
   else l)
  = (l ++ map (fun r => Assumption.mk (snd r) "profile_preference")
            (filter fst
               [(Spec.is_one_of o ["always_budget"; "mid_range"; "luxury"],
                 Spec.budget_sentence o)]))%list.
Proof.
  destruct o as [s|]; simpl; [|now rewrite app_nil_r].
  destruct (String.eqb_spec s "always_budget") as [->|_]; [reflexivity|].
  destruct (String.eqb_spec s "mid_range") as [->|_]; [reflexivity|].
  destruct (String.eqb_spec s "luxury") as [->|_]; [reflexivity|].
  simpl. now rewrite app_nil_r.
Qed.

Lemma walking_block (o : option string) (l : list Assumption.t) :
  (if eq_str (opt_str o) "low"
   then append l (preference "Minimizing walking (max 2km/day)")
   else if eq_str (opt_str o) "high"
   then append l (preference "Comfortable with long walks (5-8km/day)")
   else l)
  = (l ++ map (fun r => Assumption.mk (snd r) "profile_preference")
            (filter fst
               [(Spec.is_one_of o ["low"; "high"], Spec.walking_sentence o)]))%list.
Proof.
  destruct o as [s|]; simpl; [|now rewrite app_nil_r].
  destruct (String.eqb_spec s "low") as [->|_]; [reflexivity|].
  destruct (String.eqb_spec s "high") as [->|_]; [reflexivity|].
  simpl. now rewrite app_nil_r.
Qed.

(** On the dictionary of a profile the seven blocks never raise, and what
    they collect is the list of the rules that fire. *)
Lemma collect_assumptions_dict (py_str : value -> string) (p : UserProfile.t) :
  collect_assumptions py_str (UserProfile.dict p) = Ok (Spec.assumptions p).
Proof.
  destruct p as [uid nm budget transport early late walking food dislikes
                 accommodation hotel trips].
  unfold collect_assumptions, Spec.assumptions, Spec.rules, get_or, subscript.
  cbn [UserProfile.dict PyDict.get String.eqb Ascii.eqb Bool.eqb
       UserProfile.no_early_flights UserProfile.no_late_nights
       UserProfile.preferred_transport UserProfile.budget_style
       UserProfile.walking_tolerance UserProfile.food_preferences
       UserProfile.transport_dislikes truthy].
  rewrite truthy_opt_str.
  destruct early, late, transport as [t|];
    cbn [Spec.is_set opt_str format_value];
    try destruct (negb (t =? ""));
    cbv beta iota zeta;
    rewrite budget_block, walking_block, !truthy_str_list;
    destruct food as [|f food]; cbn [Spec.nonempty];
    rewrite ?str_join_strings; cbv beta iota;
    destruct dislikes as [|x dislikes]; cbn [Spec.nonempty];
    rewrite ?str_join_strings; cbv beta iota;
    destruct (Spec.is_one_of budget _), (Spec.is_one_of walking _);
    unfold append; cbn [filter fst snd map app];
    rewrite <- ?app_assoc; reflexivity.
Qed.

(** The blocks look the profile up key by key and nothing else. *)
Lemma collect_assumptions_ext (py_str : value -> string) (d d' : PyDict.t value) :
  (forall k, PyDict.get k d' = PyDict.get k d) ->
  collect_assumptions py_str d' = collect_assumptions py_str d.
Proof.
  intros H. unfold collect_assumptions, get_or, subscript.
  now rewrite !H.
Qed.

Lemma sources_of_rules (p : UserProfile.t) :
  Forall (fun a => Assumption.source a = "profile_preference")
    (Spec.assumptions p).
Proof.
  unfold Spec.assumptions. apply Forall_forall. intros a Ha.
  apply in_map_iff in Ha as (r & <- & _). reflexivity.
Qed.

(** C6: on every profile the formatter returns the assumptions of the seven
    rules that fire, in the priority order of the rules ([no_early_flights],
    [no_late_nights], [preferred_transport], [budget_style],
    [walking_tolerance], [food_preferences], [transport_dislikes]), each with
    the source [profile_preference]; and it returns the same list when the
    fields of the profile come in another order. *)
Theorem assumptions_in_priority_order (py_str : value -> string)
    (p : UserProfile.t) (d' : PyDict.t value)
    (Hperm : Permutation (UserProfile.dict p) d') :
  collect_assumptions py_str (UserProfile.dict p) = Ok (Spec.assumptions p)
  /\ collect_assumptions py_str d' = Ok (Spec.assumptions p)
  /\ Forall (fun a => Assumption.source a = "profile_preference")
       (Spec.assumptions p).
Proof.
  split; [|split].
  - apply collect_assumptions_dict.
  - rewrite <- (collect_assumptions_dict py_str p).
    apply collect_assumptions_ext. intros k.
    apply PyDictFacts.get_permutation; [apply UserProfile_dict_wf | exact Hperm].
  - apply sources_of_rules.
Qed.

Lemma assumptions_in_priority_order_witness :
  collect_assumptions (fun _ => "") (rev (UserProfile.dict sample_UserProfile))
  = Ok [ Assumption.mk "I'll avoid early morning departures" "profile_preference";
         Assumption.mk "Prioritizing train when possible" "profile_preference";
         Assumption.mk "Budget hotels (₹800-1500/night)" "profile_preference";
         Assumption.mk "Food preferences: vegetarian" "profile_preference";
         Assumption.mk "Avoiding: overnight_bus" "profile_preference" ].
Proof.
  exact (proj1 (proj2 (assumptions_in_priority_order (fun _ => "")
                         sample_UserProfile
                         (rev (UserProfile.dict sample_UserProfile))
                         (Permutation_rev _)))).
Defined.

(** C7: the answer of [GET /profile/{user_id}/assumptions] for a user whose
    profile is [p] carries the list of assumptions of [p], its length as
    [count], [has_assumptions] true exactly when the list is not empty, and
    as [formatted_text] the fallback sentence for an empty list and the
    bulleted lines joined by newlines otherwise.  A profile with nothing set
    has no assumptions. *)
Theorem assumptions_response_fields (py_str : value -> string) (st : store)
    (user_id : string) (p : UserProfile.t)
    (Hprofile : get_profile user_id st = (Ok (UserProfile.dict p), st)) :
  let l := Spec.assumptions p in
  handle py_str (GetAssumptions user_id) st =
    (Ok (VDict
       [ ("user_id", VStr user_id);
         ("has_assumptions", VBool (negb (Nat.eqb (length l) 0)));
         ("count", VInt (Z.of_nat (length l)));
         ("assumptions", VList (map (fun a => VDict (Assumption.dict a)) l));
         ("formatted_text", VStr (Spec.formatted_text l)) ]), st)
  /\ (l = [] -> Spec.formatted_text l
               = "No previous preferences found. Let's start fresh!")
  /\ (l <> [] -> Spec.formatted_text l
                = String.concat newline
                    (map (fun a => "• " ++ Assumption.text a) l))
  /\ (forall uid nm accommodation hotel trips,
        Spec.assumptions
          (UserProfile.mk uid nm None None false false None [] []
             accommodation hotel trips) = []).
Proof.
  intros l. split; [|split; [|split]].
  - unfold handle, get_assumptions, bind. rewrite Hprofile.
    unfold lift. rewrite collect_assumptions_dict. fold l.
    unfold ret, assumptions_response. now destruct l.
  - now intros ->.
  - now destruct l.
  - reflexivity.
Qed.

Lemma assumptions_response_fields_witness :
  PyDict.get "count"
    (match fst (handle (fun _ => "") (GetAssumptions "user_demo_123")
                  initial_store) with
     | Ok (VDict d) => d
     | _ => []
     end) = Some (VInt 5).
Proof.
  rewrite (proj1 (assumptions_response_fields (fun _ => "") initial_store
                    "user_demo_123" sample_UserProfile eq_refl)).
  reflexivity.
Defined.

(** ** What the store holds *)

(** The objects under the keys of a dictionary keep a property when the
    object assigned has it. *)
Lemma set_preserves {A : Type} (P : A -> Prop) (d : list (string * A)) k0 v0 :
  (forall k v, PyDict.get k d = Some v -> P v) ->
  P v0 ->
  forall k v, PyDict.get k (PyDict.set k0 v0 d) = Some v -> P v.
Proof.
  intros Hd Hv0 k v.
  destruct (String.eqb_spec k0 k) as [->|Hne].
  - rewrite PyDictFacts.get_set_eq. now intros [= <-].
  - rewrite PyDictFacts.get_set_ne by exact Hne. apply Hd.
Qed.

Lemma SessionState_dict_shape s : session_shape (SessionState.dict s).
Proof. now exists (TripSlots.dict (SessionState.trip_slots s)). Qed.

Lemma initial_store_invariant : store_invariant initial_store.
Proof.
  split.
  - change (user_profiles initial_store)
      with (PyDict.set "user_demo_123" sample_profile
              (@nil (string * PyDict.t value))).
    apply set_preserves; [discriminate | now exists sample_UserProfile].
  - discriminate.
Qed.

(** The answer to [GET /profile/{user_id}/assumptions] never touches the
    store. *)
Lemma get_assumptions_frame py_str user_id st :
  snd (get_assumptions py_str user_id st) = st.
Proof.
  unfold get_assumptions, bind.
  destruct (get_profile_ok user_id st) as [d ->].
  unfold lift, ret. now destruct (collect_assumptions py_str d).
Qed.

Lemma handle_preserves_invariant py_str req st :
  store_invariant st -> store_invariant (snd (handle py_str req st)).
Proof.
  intros [Hprofiles Hsessions].
  destruct req; simpl.
  - now split.
  - unfold bind. destruct (get_profile_ok user_id st) as [d ->]. now split.
  - unfold_handlers. split; [|exact Hsessions].
    apply set_preserves; [exact Hprofiles | now exists profile].
  - rewrite get_assumptions_frame. now split.
  - unfold_handlers. split; [exact Hprofiles|].
    apply set_preserves; [exact Hsessions | apply SessionState_dict_shape].
  - unfold bind. destruct (get_session_ok session_id st) as [d ->]. now split.
  - unfold_handlers.
    destruct (PyDict.get session_id (sessions st)) as [session|] eqn:Hs;
      [|now split].
    destruct (PyDict.get "trip_slots" session) as [[| | | | | |trip_slots]|];
      simpl; try now split.
    split; [exact Hprofiles|].
    apply set_preserves; [exact Hsessions|].
    eexists. apply PyDictFacts.get_set_eq.
  - now split.
  - apply initial_store_invariant.
  - now split.
Qed.

Lemma reachable_invariant py_str st : reachable py_str st -> store_invariant st.
Proof.
  induction 1 as [|st req _ IH].
  - apply initial_store_invariant.
  - now apply handle_preserves_invariant.
Qed.

(** ** Merging trip slots *)

(** The merge on a stored session whose [trip_slots] is a dictionary. *)
Lemma update_trip_slots_stored session_id slots st session trip_slots :
  PyDict.get session_id (sessions st) = Some session ->
  PyDict.get "trip_slots" session = Some (VDict trip_slots) ->
  update_trip_slots session_id slots st =
    (Ok (VDict
       [ ("status", VStr "success");
         ("session_id", VStr session_id);
         ("updated_slots", VDict slots) ]),
     mkStore (user_profiles st)
       (PyDict.set session_id
          (PyDict.set "trip_slots" (VDict (PyDict.update trip_slots slots))
             session)
          (sessions st))).
Proof.
  intros Hs Ht. unfold_handlers. now rewrite Hs, Ht.
Qed.

Lemma update_trip_slots_missing session_id slots st :
  PyDict.get session_id (sessions st) = None ->
  update_trip_slots session_id slots st =
    (Raise (HTTPException 404 "Session not found"), st).
Proof. intros Hs. unfold_handlers. now rewrite Hs. Qed.

(** C3: on a stored session of the running service the slot merge succeeds,
    answers with the slots it was given as [updated_slots], and leaves a
    session whose [trip_slots] has, for every key of the given slots, the
    given value, and for every other key what it had before; the other
    fields of the session, the other sessions and the profiles stay as they
    were.  The given slots are a dictionary, so no key occurs in them
    twice. *)
Theorem update_trip_slots_merges (py_str : value -> string) (st : store)
    (session_id : string) (session slots : PyDict.t value)
    (Hreach : reachable py_str st)
    (Hstored : PyDict.get session_id (sessions st) = Some session)
    (Hslots : PyDict.wf slots) :
  let st' := snd (handle py_str (UpdateTripSlots session_id slots) st) in
  exists old new session',
    PyDict.get "trip_slots" session = Some (VDict old)
    /\ fst (handle py_str (UpdateTripSlots session_id slots) st) =
         Ok (VDict
           [ ("status", VStr "success");
             ("session_id", VStr session_id);
             ("updated_slots", VDict slots) ])
    /\ PyDict.get session_id (sessions st') = Some session'
    /\ PyDict.get "trip_slots" session' = Some (VDict new)
    /\ (forall k v, PyDict.get k slots = Some v -> PyDict.get k new = Some v)
    /\ (forall k, PyDict.get k slots = None -> PyDict.get k new = PyDict.get k old)
    /\ (forall k, k <> "trip_slots" -> PyDict.get k session' = PyDict.get k session)
    /\ (forall other, other <> session_id ->
          PyDict.get other (sessions st') = PyDict.get other (sessions st))
    /\ user_profiles st' = user_profiles st.
Proof.
  intros st'.
  destruct (reachable_invariant py_str st Hreach) as [_ Hsessions].
  destruct (Hsessions session_id session Hstored) as [old Hold].
  exists old, (PyDict.update old slots),
    (PyDict.set "trip_slots" (VDict (PyDict.update old slots)) session).
  subst st'. cbn [handle].
  rewrite (update_trip_slots_stored session_id slots st session old Hstored Hold).
  cbn [fst snd sessions user_profiles].
  repeat split.
  - exact Hold.
  - apply PyDictFacts.get_set_eq.
  - apply PyDictFacts.get_set_eq.
  - intros k v. now apply PyDictFacts.get_update_in.
  - intros k. apply PyDictFacts.get_update_notin.
  - intros k Hk. apply PyDictFacts.get_set_ne. congruence.
  - intros other Hother. apply PyDictFacts.get_set_ne. congruence.
Qed.

(** A session as a client would post it, for the examples below. *)
Lemma reachable_after_session py_str s :
  reachable py_str (snd (handle py_str (UpdateSession s) initial_store)).
Proof. apply reachable_step, reachable_start. Qed.

Lemma update_trip_slots_merges_witness :
  let s := SessionState.mk "s1" "user_demo_123"
             (TripSlots.mk None None None None (Some "mid") None None None [])
             0 "clarifying" in
  let st := snd (handle (fun _ => "") (UpdateSession s) initial_store) in
  let st' :=
    snd (handle (fun _ => "") (UpdateTripSlots "s1" [("destination", VStr "Goa")])
           st) in
  exists session',
    PyDict.get "s1" (sessions st') = Some session'
    /\ exists new,
         PyDict.get "trip_slots" session' = Some (VDict new)
         /\ PyDict.get "destination" new = Some (VStr "Goa")
         /\ PyDict.get "budget_level" new = Some (VStr "mid").
Proof.
  intros s st st'.
  assert (Hwf : PyDict.wf [("destination", VStr "Goa")]).
  { constructor; [simpl; tauto | constructor]. }
  destruct (update_trip_slots_merges (fun _ => "") st "s1" (SessionState.dict s)
              [("destination", VStr "Goa")]
              (reachable_after_session _ s) eq_refl Hwf)
    as (old & new & session' & Hold & _ & Hget & Hnew & Hin & Hout & _).
  exists session'. split; [exact Hget|].
  exists new. split; [exact Hnew|]. split.
  - apply Hin. reflexivity.
  - rewrite (Hout "budget_level" eq_refl).
    injection Hold as <-. reflexivity.
Defined.

(** The example of the specification: merging [{"destination": "Goa"}] into
    the slots [{"budget_level": "mid"}]. *)
Example merge_goa_into_mid :
  PyDict.update [("budget_level", VStr "mid")] [("destination", VStr "Goa")]
  = [("budget_level", VStr "mid"); ("destination", VStr "Goa")].
Proof. reflexivity. Qed.

(** ** Errors *)

Lemma str_items_raise l e : str_items l = Raise e -> e = TypeError.
Proof.
  induction l as [|v l IH]; simpl; [discriminate|].
  destruct v; try (now intros [= <-]).
  destruct (str_items l); [discriminate|].
  intros [= <-]. now apply IH.
Qed.

Lemma str_join_raise sep x e : str_join sep x = Raise e -> e = TypeError.
Proof.
  destruct x; simpl; try discriminate; try (now intros [= <-]).
  destruct (str_items items) eqn:E; [discriminate|].
  intros [= <-]. now apply str_items_raise in E.
Qed.

(** What the seven blocks can raise on an arbitrary dictionary. *)
Lemma collect_assumptions_raise py_str d e :
  collect_assumptions py_str d = Raise e ->
  e = TypeError \/ e = KeyError "preferred_transport".
Proof.
  unfold collect_assumptions, subscript. cbv zeta.
  destruct (truthy (get_or VNone "preferred_transport" d));
    [destruct (PyDict.get "preferred_transport" d);
       [|intros [= <-]; now right]|];
    (destruct (truthy (get_or (VList []) "food_preferences" d));
       [destruct (str_join ", " (get_or (VList []) "food_preferences" d)) eqn:E1;
          [|intros [= <-]; left; now apply str_join_raise in E1]|]);
    (destruct (truthy (get_or (VList []) "transport_dislikes" d));
       [destruct (str_join ", " (get_or (VList []) "transport_dislikes" d)) eqn:E2;
          [discriminate|intros [= <-]; left; now apply str_join_raise in E2]
       |discriminate]).
Qed.

(** In the running service every profile lookup returns the dictionary of a
    model object. *)
Lemma get_profile_is_profile_dict user_id st :
  store_invariant st ->
  exists p, get_profile user_id st = (Ok (UserProfile.dict p), st).
Proof.
  intros [Hprofiles _]. unfold_handlers.
  destruct (PyDict.get user_id (user_profiles st)) as [d|] eqn:E.
  - destruct (Hprofiles _ _ E) as [p ->]. now exists p.
  - now exists (default_UserProfile user_id).
Qed.

(** An [HTTPException] comes from the slot merge on an unknown session, on
    any store. *)
Lemma handle_http_exception py_str req st status_code detail :
  fst (handle py_str req st) = Raise (HTTPException status_code detail) ->
  status_code = 404%Z /\ detail = "Session not found"
  /\ exists session_id slots,
       req = UpdateTripSlots session_id slots
       /\ PyDict.contains session_id (sessions st) = false.
Proof.
  destruct req; simpl; try discriminate.
  - unfold bind. destruct (get_profile_ok user_id st) as [d ->]. discriminate.
  - unfold get_assumptions, bind.
    destruct (get_profile_ok user_id st) as [d ->]. unfold lift, ret.
    destruct (collect_assumptions py_str d) eqn:E; simpl; [discriminate|].
    intros [= ->]. apply collect_assumptions_raise in E as [E|E]; discriminate.
  - unfold bind. destruct (get_session_ok session_id st) as [d ->]. discriminate.
  - unfold update_trip_slots, bind, read_sessions, raise, PyDict.contains.
    destruct (PyDict.get session_id (sessions st)) as [session|] eqn:E.
    + destruct (PyDict.get "trip_slots" session) as [[| | | | | |trip_slots]|];
        discriminate.
    + intros [= <- <-]. split; [reflexivity|]. split; [reflexivity|].
      exists session_id, slots. now rewrite E.
Qed.

(** In the running service nothing else is ever raised. *)
Lemma handle_exception py_str req st e :
  store_invariant st ->
  fst (handle py_str req st) = Raise e ->
  e = HTTPException 404 "Session not found".
Proof.
  intros Hinv. pose proof Hinv as [_ Hsessions].
  destruct req; simpl; try discriminate.
  - unfold bind. destruct (get_profile_ok user_id st) as [d ->]. discriminate.
  - unfold get_assumptions, bind.
    destruct (get_profile_is_profile_dict user_id st Hinv) as [p ->].
    unfold lift. rewrite collect_assumptions_dict. discriminate.
  - unfold bind. destruct (get_session_ok session_id st) as [d ->]. discriminate.
  - unfold update_trip_slots, bind, read_sessions, raise.
    destruct (PyDict.get session_id (sessions st)) as [session|] eqn:E.
    + destruct (Hsessions _ _ E) as [trip_slots ->]. discriminate.
    + now intros [= <-].
Qed.

(** C4: the slot merge on a session key that is not in [sessions] raises the
    [HTTPException] with status 404 and detail [Session not found], whatever
    the slots, and leaves the store as it was.  No handler raises another
    [HTTPException], on any store, and in the running service no handler
    raises anything else. *)
Theorem update_trip_slots_unknown_session (py_str : value -> string)
    (st : store) (session_id : string) (slots : PyDict.t value)
    (Hmissing : PyDict.contains session_id (sessions st) = false) :
  handle py_str (UpdateTripSlots session_id slots) st
    = (Raise (HTTPException 404 "Session not found"), st)
  /\ http_status (fst (handle py_str (UpdateTripSlots session_id slots) st))
     = 404%Z
  /\ (forall st0 req status_code detail,
        fst (handle py_str req st0) = Raise (HTTPException status_code detail) ->
        status_code = 404%Z /\ detail = "Session not found"
        /\ exists id payload,
             req = UpdateTripSlots id payload
             /\ PyDict.contains id (sessions st0) = false)
  /\ (forall st0 req e,
        reachable py_str st0 ->
        fst (handle py_str req st0) = Raise e ->
        e = HTTPException 404 "Session not found").
Proof.
  apply contains_false_get in Hmissing.
  assert (H : handle py_str (UpdateTripSlots session_id slots) st
              = (Raise (HTTPException 404 "Session not found"), st))
    by now apply update_trip_slots_missing.
  split; [exact H|]. split; [now rewrite H|]. split.
  - intros st0 req status_code detail. apply handle_http_exception.
  - intros st0 req e Hreach. apply handle_exception.
    now apply reachable_invariant with py_str.
Qed.

Lemma update_trip_slots_unknown_session_witness :
  handle (fun _ => "") (UpdateTripSlots "nowhere" [("destination", VStr "Goa")])
    initial_store
  = (Raise (HTTPException 404 "Session not found"), initial_store).
Proof.
  exact (proj1 (update_trip_slots_unknown_session (fun _ => "") initial_store
                  "nowhere" [("destination", VStr "Goa")] eq_refl)).
Defined.

(** C10: in the running service every stored session has a [trip_slots]
    that is a dictionary, so the slot merge succeeds on every stored session
    and raises nothing but the 404 of an unknown session key. *)
Theorem stored_sessions_keep_trip_slots (py_str : value -> string) (st : store)
    (Hreach : reachable py_str st) :
  (forall session_id session,
      PyDict.get session_id (sessions st) = Some session ->
      exists trip_slots,
        PyDict.get "trip_slots" session = Some (VDict trip_slots))
  /\ (forall session_id session slots,
        PyDict.get session_id (sessions st) = Some session ->
        exists response,
          fst (update_trip_slots session_id slots st) = Ok response)
  /\ (forall session_id slots e,
        fst (update_trip_slots session_id slots st) = Raise e ->
        e = HTTPException 404 "Session not found"
        /\ PyDict.get session_id (sessions st) = None).
Proof.
  destruct (reachable_invariant py_str st Hreach) as [_ Hsessions].
  split; [|split].
  - exact Hsessions.
  - intros session_id session slots Hs.
    destruct (Hsessions _ _ Hs) as [trip_slots Ht].
    rewrite (update_trip_slots_stored _ slots _ _ _ Hs Ht). simpl. eauto.
  - intros session_id slots e.
    destruct (PyDict.get session_id (sessions st)) as [session|] eqn:Hs.
    + destruct (Hsessions _ _ Hs) as [trip_slots Ht].
      rewrite (update_trip_slots_stored _ slots _ _ _ Hs Ht). discriminate.
    + rewrite (update_trip_slots_missing _ slots _ Hs). now intros [= <-].
Qed.

Lemma stored_sessions_keep_trip_slots_witness :
  let s := SessionState.mk "s1" "user_demo_123" TripSlots.default 0 "clarifying" in
  let st := snd (handle (fun _ => "") (UpdateSession s) initial_store) in
  exists trip_slots,
    PyDict.get "trip_slots" (SessionState.dict s) = Some (VDict trip_slots).
Proof.
  intros s st.
  exact (proj1 (stored_sessions_keep_trip_slots (fun _ => "") st
                  (reachable_after_session _ s))
           "s1" (SessionState.dict s) eq_refl).
Defined.

(** * Further properties of the handlers *)

(** ** More on dictionaries *)

Module PyDictMore.
Section Facts.
Context {A : Type}.
Implicit Types (d src : list (string * A)) (k : string) (v : A).

(** Assigning to a key the object it already has changes nothing. *)
Lemma set_same k v d : PyDict.get k d = Some v -> PyDict.set k v d = d.
Proof.
  induction d as [|[k' v'] rest IH]; simpl; [discriminate|].
  destruct (k' =? k) eqn:E.
  - now intros [= ->].
  - intros H. now rewrite IH.
Qed.

(** The second of two assignments to a key is the one that counts. *)
Lemma set_set k v1 v2 d :
  PyDict.set k v2 (PyDict.set k v1 d) = PyDict.set k v2 d.
Proof.
  induction d as [|[k' v'] rest IH]; simpl.
  - now rewrite String.eqb_refl.
  - destruct (k' =? k) eqn:E; simpl; rewrite E; [reflexivity | now rewrite IH].
Qed.

Lemma contains_keys k d : PyDict.contains k d = true <-> In k (PyDict.keys d).
Proof.
  unfold PyDict.contains.
  destruct (PyDict.get k d) eqn:E.
  - split; [intros _|reflexivity].
    destruct (in_dec string_dec k (PyDict.keys d)) as [Hin|Hout]; [exact Hin|].
    apply PyDictFacts.get_none_keys in Hout. congruence.
  - split; [discriminate|].
    intros Hin. now apply PyDictFacts.get_none_keys in E.
Qed.

Lemma len_set k v d :
  PyDict.len (PyDict.set k v d)
  = (PyDict.len d + if PyDict.contains k d then 0 else 1)%Z.
Proof.
  unfold PyDict.len.
  assert (H : length (PyDict.set k v d)
              = length (PyDict.keys (PyDict.set k v d)))
    by (unfold PyDict.keys; now rewrite length_map).
  rewrite H, PyDictFacts.keys_set.
  destruct (PyDict.contains k d); unfold PyDict.keys;
    rewrite ?length_app, length_map; simpl; lia.
Qed.

Lemma keys_set_incl k v d : incl (PyDict.keys d) (PyDict.keys (PyDict.set k v d)).
Proof.
  rewrite PyDictFacts.keys_set.
  destruct (PyDict.contains k d); [apply incl_refl | now apply incl_appl, incl_refl].
Qed.

(** [update] never drops a key. *)
Lemma keys_update_incl d src :
  incl (PyDict.keys d) (PyDict.keys (PyDict.update d src)).
Proof.
  unfold PyDict.update. revert d.
  induction src as [|[k v] rest IH]; intros d; simpl; [apply incl_refl|].
  eapply incl_tran; [apply keys_set_incl | apply IH].
Qed.

(** Assignments of objects that are already there change nothing. *)
Lemma update_same d src :
  (forall k v, In (k, v) src -> PyDict.get k d = Some v) ->
  PyDict.update d src = d.
Proof.
  unfold PyDict.update.
  induction src as [|[k v] rest IH]; intros H; simpl; [reflexivity|].
  rewrite set_same by (apply H; now left).
  apply IH. intros k' v' Hin. apply H. now right.
Qed.

(** Updating twice from the same dictionary is updating once. *)
Lemma update_idempotent d src :
  PyDict.wf src ->
  PyDict.update (PyDict.update d src) src = PyDict.update d src.
Proof.
  intros Hwf. apply update_same. intros k v Hin.
  apply PyDictFacts.get_update_in; [exact Hwf|].
  now apply PyDictFacts.in_get_some.
Qed.

(** Two updates in a row are one update with the entries of both. *)
Lemma update_update d src1 src2 :
  PyDict.update (PyDict.update d src1) src2 = PyDict.update d (src1 ++ src2).
Proof. unfold PyDict.update. now rewrite fold_left_app. Qed.
End Facts.
End PyDictMore.

(** ** Sessions: write then read *)

Lemma TripSlots_dict_inj s s' : TripSlots.dict s = TripSlots.dict s' -> s = s'.
Proof.
  destruct s, s'. unfold TripSlots.dict. simpl.
  intros [= H1 H2 H3 H4 H5 H6 H7 H8 H9].
  apply opt_str_inj in H1, H2, H3, H4, H5, H8.
  apply opt_int_inj in H6, H7.
  apply map_VStr_inj in H9.
  now subst.
Qed.

Lemma SessionState_dict_inj s s' :
  SessionState.dict s = SessionState.dict s' -> s = s'.
Proof.
  destruct s as [sid uid slots count stage], s' as [sid' uid' slots' count' stage'].
  unfold SessionState.dict. simpl.
  remember (TripSlots.dict slots) as d eqn:Hd.
  remember (TripSlots.dict slots') as d' eqn:Hd'.
  intros [= H1 H2 H3 H4 H5]. subst.
  apply TripSlots_dict_inj in H3. now subst.
Qed.

(** X1: after [POST /session] with the session [s], a [GET /session/...]
    under the [session_id] of [s] returns the dictionary of [s], nested
    slots included, whatever was stored under that key before; that
    dictionary determines [s]. *)
Theorem get_session_after_update_session (s : SessionState.t) (st : store) :
  let st' := snd (update_session s st) in
  fst (update_session s st)
    = Ok (VDict
        [ ("status", VStr "success");
          ("message", VStr "Session saved");
          ("session_id", VStr (SessionState.session_id s)) ])
  /\ get_session (SessionState.session_id s) st' = (Ok (SessionState.dict s), st')
  /\ (forall s', SessionState.dict s' = SessionState.dict s -> s' = s).
Proof.
  split; [|split].
  - reflexivity.
  - unfold_handlers. now rewrite PyDictFacts.get_set_eq.
  - intros s'. apply SessionState_dict_inj.
Qed.

(** ** Overwriting *)

(** X2: a second [POST /profile/{user_id}] under the same key replaces the
    first one wholesale: the store is the one the second write alone would
    have left, position of the key included. *)
Theorem update_profile_overwrites (user_id : string) (p1 p2 : UserProfile.t)
    (st : store) :
  snd (update_profile user_id p2 (snd (update_profile user_id p1 st)))
  = snd (update_profile user_id p2 st).
Proof.
  unfold_handlers. now rewrite PyDictMore.set_set.
Qed.

(** X3: a second [POST /session] with the same [session_id] replaces the
    first one wholesale, and so does away with any slots merged in between:
    the store is the one the second write alone would have left. *)
Theorem update_session_overwrites (s1 s2 : SessionState.t) (slots : PyDict.t value) (st : store)
    (Hsame : SessionState.session_id s1 = SessionState.session_id s2) :
  snd (update_session s2 (snd (update_session s1 st)))
    = snd (update_session s2 st)
  /\ snd (update_session s2
            (snd (update_trip_slots (SessionState.session_id s1) slots
                    (snd (update_session s1 st)))))
     = snd (update_session s2 st).
Proof.
  split.
  - unfold_handlers. rewrite Hsame. now rewrite PyDictMore.set_set.
  - rewrite (update_trip_slots_stored (SessionState.session_id s1) slots
               (snd (update_session s1 st)) (SessionState.dict s1)
               (TripSlots.dict (SessionState.trip_slots s1))).
    + unfold_handlers. rewrite Hsame. now rewrite !PyDictMore.set_set.
    + unfold_handlers. apply PyDictFacts.get_set_eq.
    + reflexivity.
Qed.

Lemma update_session_overwrites_witness :
  let s1 := SessionState.mk "s1" "user_demo_123" TripSlots.default 0 "clarifying" in
  let s2 := SessionState.mk "s1" "someone" TripSlots.default 3 "planning" in
  snd (update_session s2
         (snd (update_trip_slots (SessionState.session_id s1)
                 [("destination", VStr "Goa")]
                 (snd (update_session s1 initial_store)))))
  = snd (update_session s2 initial_store).
Proof.
  intros s1 s2.
  exact (proj2 (update_session_overwrites s1 s2 [("destination", VStr "Goa")]
                  initial_store eq_refl)).
Defined.

(** ** Writes and their neighbours *)

(** X4: a [POST /profile/{user_id}] changes what is read under that key and
    nothing else: the profile under any other key and every session read as
    before.  A [POST /session] changes what is read under its [session_id]
    and nothing else: the session under any other key and every profile read
    as before. *)
Theorem writes_are_isolated (user_id other_user other_session : string)
    (p : UserProfile.t) (s : SessionState.t) (st : store)
    (Huser : other_user <> user_id)
    (Hsession : other_session <> SessionState.session_id s) :
  fst (get_profile other_user (snd (update_profile user_id p st)))
    = fst (get_profile other_user st)
  /\ sessions (snd (update_profile user_id p st)) = sessions st
  /\ fst (get_session other_session (snd (update_session s st)))
     = fst (get_session other_session st)
  /\ user_profiles (snd (update_session s st)) = user_profiles st.
Proof.
  split; [|split; [|split]].
  - unfold_handlers. rewrite PyDictFacts.get_set_ne by congruence.
    now destruct (PyDict.get other_user (user_profiles st)).
  - reflexivity.
  - unfold_handlers. rewrite PyDictFacts.get_set_ne by congruence.
    now destruct (PyDict.get other_session (sessions st)).
  - reflexivity.
Qed.

Lemma writes_are_isolated_witness :
  fst (get_profile "user_demo_123"
         (snd (update_profile "alice" (default_UserProfile "alice")
                 initial_store)))
  = Ok sample_profile.
Proof.
  assert (Hu : "user_demo_123" <> "alice") by discriminate.
  assert (Hs : "s2" <> SessionState.session_id
                         (SessionState.mk "s1" "alice" TripSlots.default 0 "clarifying"))
    by discriminate.
  rewrite (proj1 (writes_are_isolated "alice" "user_demo_123" "s2"
                    (default_UserProfile "alice")
                    (SessionState.mk "s1" "alice" TripSlots.default 0 "clarifying")
                    initial_store Hu Hs)).
  reflexivity.
Defined.

(** ** Listings and counts *)

(** X5: after a [POST /profile/{user_id}] the listing of [GET /debug/users]
    is the listing from before, with [user_id] added at the end and the
    count one higher when the key is new, and unchanged when the key was
    there already. *)
Theorem list_users_after_update_profile (user_id : string) (p : UserProfile.t)
    (st : store) :
  fst (list_users (snd (update_profile user_id p st)))
  = Ok (VDict
      [ ("count",
          VInt (PyDict.len (user_profiles st)
                + if PyDict.contains user_id (user_profiles st) then 0 else 1));
        ("users",
          VList (map VStr
                   (PyDict.keys (user_profiles st)
                    ++ if PyDict.contains user_id (user_profiles st)
                       then [] else [user_id])%list)) ]).
Proof.
  unfold_handlers. rewrite PyDictMore.len_set, PyDictFacts.keys_set.
  destruct (PyDict.contains user_id (user_profiles st));
    now rewrite ?app_nil_r.
Qed.

(** X6: the two counts of [GET /health]: a [POST /session] raises
    [sessions_count] by one when its [session_id] is new and leaves it when
    the key was there already, and never touches [users_count]; a slot merge
    changes neither count, whether it succeeds or raises. *)
Theorem health_counts (now : string) (s : SessionState.t)
    (session_id : string) (slots : PyDict.t value) (st : store) :
  fst (health now (snd (update_session s st)))
    = Ok (VDict
        [ ("status", VStr "healthy");
          ("timestamp", VStr now);
          ("users_count", VInt (PyDict.len (user_profiles st)));
          ("sessions_count",
            VInt (PyDict.len (sessions st)
                  + if PyDict.contains (SessionState.session_id s) (sessions st)
                    then 0 else 1)) ])
  /\ fst (health now (snd (update_trip_slots session_id slots st)))
     = fst (health now st).
Proof.
  split.
  - unfold_handlers. now rewrite PyDictMore.len_set.
  - unfold_handlers.
    destruct (PyDict.get session_id (sessions st)) as [session|] eqn:Hs;
      [|reflexivity].
    destruct (PyDict.get "trip_slots" session) as [[| | | | | |trip_slots]|];
      simpl; try reflexivity.
    rewrite PyDictMore.len_set. unfold PyDict.contains. rewrite Hs.
    now rewrite Z.add_0_r.
Qed.

(** ** What the running service keeps *)

Lemma set_preserves_keyed {A : Type} (P : string -> A -> Prop)
    (d : list (string * A)) k0 v0 :
  (forall k v, PyDict.get k d = Some v -> P k v) ->
  P k0 v0 ->
  forall k v, PyDict.get k (PyDict.set k0 v0 d) = Some v -> P k v.
Proof.
  intros Hd Hv0 k v.
  destruct (String.eqb_spec k0 k) as [->|Hne].
  - rewrite PyDictFacts.get_set_eq. now intros [= <-].
  - rewrite PyDictFacts.get_set_ne by exact Hne. apply Hd.
Qed.

Lemma stored_session_posted s :
  stored_session (SessionState.session_id s) (SessionState.dict s).
Proof.
  exists s, (TripSlots.dict (SessionState.trip_slots s)).
  split; [reflexivity|]. split; [reflexivity | apply incl_refl].
Qed.

Lemma stored_session_trip_slots session_id session :
  stored_session session_id session ->
  exists s trip_slots,
    SessionState.session_id s = session_id
    /\ session = PyDict.set "trip_slots" (VDict trip_slots) (SessionState.dict s)
    /\ PyDict.get "trip_slots" session = Some (VDict trip_slots)
    /\ incl (PyDict.keys (TripSlots.dict (SessionState.trip_slots s)))
            (PyDict.keys trip_slots).
Proof.
  intros (s & trip_slots & Hid & -> & Hincl).
  exists s, trip_slots. repeat split; try assumption.
Qed.

Lemma initial_service_invariant : service_invariant initial_store.
Proof.
  split; [|split; [|split]].
  - repeat constructor. simpl. tauto.
  - constructor.
  - reflexivity.
  - discriminate.
Qed.

Lemma update_profile_store user_id profile st :
  snd (update_profile user_id profile st)
  = mkStore (PyDict.set user_id (UserProfile.dict profile) (user_profiles st))
      (sessions st).
Proof. reflexivity. Qed.

Lemma update_session_store session st :
  snd (update_session session st)
  = mkStore (user_profiles st)
      (PyDict.set (SessionState.session_id session) (SessionState.dict session)
         (sessions st)).
Proof. reflexivity. Qed.

Lemma handle_preserves_service_invariant py_str req st :
  service_invariant st -> service_invariant (snd (handle py_str req st)).
Proof.
  intros (Hwfp & Hwfs & Hdemo & Hstored).
  assert (Hsame : service_invariant st) by (repeat split; assumption).
  destruct req; cbn [handle]; try exact Hsame.
  - unfold bind. now destruct (get_profile_ok user_id st) as [d ->].
  - rewrite update_profile_store.
    split; [|split; [|split]]; cbn [user_profiles sessions]; try assumption.
    + now apply PyDictFacts.wf_set.
    + destruct (String.eqb_spec user_id "user_demo_123") as [->|Hne].
      * apply PyDictFacts.contains_set_eq.
      * now rewrite PyDictFacts.contains_set_ne.
  - now rewrite get_assumptions_frame.
  - rewrite update_session_store.
    split; [|split; [|split]]; cbn [user_profiles sessions]; try assumption.
    + now apply PyDictFacts.wf_set.
    + apply set_preserves_keyed; [exact Hstored | apply stored_session_posted].
  - unfold bind. now destruct (get_session_ok session_id st) as [d ->].
  - destruct (PyDict.get session_id (sessions st)) as [session|] eqn:Hs.
    + destruct (stored_session_trip_slots _ _ (Hstored _ _ Hs))
        as (s & trip_slots & Hid & Hsession & Hslots & Hincl).
      rewrite (update_trip_slots_stored _ slots _ _ _ Hs Hslots).
      split; [|split; [|split]]; cbn [snd user_profiles sessions];
        try assumption.
      * now apply PyDictFacts.wf_set.
      * apply set_preserves_keyed; [exact Hstored|].
        exists s, (PyDict.update trip_slots slots).
        split; [exact Hid|]. split.
        -- rewrite Hsession. apply PyDictMore.set_set.
        -- eapply incl_tran; [exact Hincl | apply PyDictMore.keys_update_incl].
    + now rewrite (update_trip_slots_missing _ slots _ Hs).
  - apply initial_service_invariant.
Qed.

Lemma reachable_service_invariant py_str st :
  reachable py_str st -> service_invariant st.
Proof.
  induction 1 as [|st req _ IH].
  - apply initial_service_invariant.
  - now apply handle_preserves_service_invariant.
Qed.

(** X7: in the running service no key is listed twice, in either
    dictionary, and [user_demo_123] is always a key of the profiles: it is
    there at start-up, no handler removes a single key, and a reset puts it
    back.  So [GET /debug/users] never reports a count below one. *)
Theorem running_service_keys (py_str : value -> string) (st : store)
    (Hreach : reachable py_str st) :
  NoDup (PyDict.keys (user_profiles st))
  /\ NoDup (PyDict.keys (sessions st))
  /\ In "user_demo_123" (PyDict.keys (user_profiles st))
  /\ (1 <= PyDict.len (user_profiles st))%Z.
Proof.
  destruct (reachable_service_invariant py_str st Hreach)
    as (Hwfp & Hwfs & Hdemo & _).
  apply PyDictMore.contains_keys in Hdemo.
  repeat split; try assumption.
  unfold PyDict.len, PyDict.keys in *.
  destruct (user_profiles st); [destruct Hdemo | simpl; lia].
Qed.

Lemma running_service_keys_witness :
  In "user_demo_123"
    (PyDict.keys
       (user_profiles
          (snd (handle (fun _ => "")
                  (UpdateProfile "alice" (default_UserProfile "alice"))
                  initial_store)))).
Proof.
  exact (proj1 (proj2 (proj2
    (running_service_keys (fun _ => "") _
       (reachable_step _ _
          (UpdateProfile "alice" (default_UserProfile "alice"))
          (reachable_start _)))))).
Defined.

(** A request served by a [GET] route leaves the store as it found it. *)
Lemma get_requests_frame py_str req st :
  is_get req = true -> snd (handle py_str req st) = st.
Proof.
  destruct req; try discriminate; intros _; simpl; try reflexivity.
  - unfold bind. now destruct (get_profile_ok user_id st) as [d ->].
  - apply get_assumptions_frame.
  - unfold bind. now destruct (get_session_ok session_id st) as [d ->].
Qed.

(** X8: apart from the reset, no request takes a key away: a key of the
    profiles before the request is one after it, and so for the sessions,
    on every store. *)
Theorem keys_are_kept (py_str : value -> string) (req : request) (st : store)
    (k : string) (Hreq : req <> ResetData) :
  (PyDict.contains k (user_profiles st) = true ->
   PyDict.contains k (user_profiles (snd (handle py_str req st))) = true)
  /\ (PyDict.contains k (sessions st) = true ->
      PyDict.contains k (sessions (snd (handle py_str req st))) = true).
Proof.
  assert (Hset : forall (A : Type) (d : list (string * A)) k0 v0,
             PyDict.contains k d = true ->
             PyDict.contains k (PyDict.set k0 v0 d) = true).
  { intros A d k0 v0 H. destruct (String.eqb_spec k0 k) as [->|Hne].
    - apply PyDictFacts.contains_set_eq.
    - now rewrite PyDictFacts.contains_set_ne. }
  destruct (is_get req) eqn:Hget.
  - rewrite (get_requests_frame py_str req st Hget). now split.
  - destruct req; try discriminate; try congruence; cbn [handle].
    + rewrite update_profile_store. cbn [user_profiles sessions].
      split; [apply Hset | tauto].
    + rewrite update_session_store. cbn [user_profiles sessions].
      split; [tauto | apply Hset].
    + unfold update_trip_slots, bind, read_sessions, write_sessions, raise, ret.
      destruct (PyDict.get session_id (sessions st)) as [session|];
        [|now split].
      destruct (PyDict.get "trip_slots" session) as [[| | | | | |trip_slots]|];
        cbn [snd user_profiles sessions]; try (now split).
      split; [tauto | apply Hset].
Qed.

Lemma keys_are_kept_witness :
  PyDict.contains "user_demo_123"
    (user_profiles
       (snd (handle (fun _ => "")
               (UpdateProfile "alice" (default_UserProfile "alice"))
               initial_store))) = true.
Proof.
  assert (Hreq : UpdateProfile "alice" (default_UserProfile "alice") <> ResetData)
    by discriminate.
  exact (proj1 (keys_are_kept (fun _ => "")
                  (UpdateProfile "alice" (default_UserProfile "alice"))
                  initial_store "user_demo_123" Hreq) eq_refl).
Defined.

(** X9: every request served by a [GET] route ([/], [/profile/...],
    [/profile/.../assumptions], [/session/...], [/debug/users], [/health])
    leaves the store as it found it, on every store and whether it answers
    or raises; so does any sequence of them. *)
Theorem get_requests_leave_store (py_str : value -> string)
    (reqs : list request) (st : store)
    (Hgets : forallb is_get reqs = true) :
  run py_str reqs st = st.
Proof.
  revert st. induction reqs as [|req reqs IH]; intros st; [reflexivity|].
  simpl in Hgets. apply andb_prop in Hgets as [Hreq Hrest].
  change (run py_str (req :: reqs) st)
    with (run py_str reqs (snd (handle py_str req st))).
  rewrite (get_requests_frame py_str req st Hreq). now apply IH.
Qed.

Lemma get_requests_leave_store_witness :
  run (fun _ => "")
    [Root; GetAssumptions "user_demo_123"; ListUsers; Health "2024-01-01T00:00:00";
     GetAssumptions "nobody"]
    initial_store = initial_store.
Proof.
  apply (get_requests_leave_store (fun _ => "")
           [Root; GetAssumptions "user_demo_123"; ListUsers;
            Health "2024-01-01T00:00:00"; GetAssumptions "nobody"]
           initial_store eq_refl).
Defined.

(** ** More on the assumptions *)

(** X10: for a user without a stored profile [GET /profile/.../assumptions]
    answers that there are no assumptions, with the fallback text: the
    default profile has budget style [mixed] and walking tolerance [medium],
    which produce nothing.  The store is left as it was. *)
Theorem get_assumptions_unknown_user (py_str : value -> string)
    (user_id : string) (st : store)
    (Hmissing : PyDict.contains user_id (user_profiles st) = false) :
  handle py_str (GetAssumptions user_id) st
  = (Ok (VDict
       [ ("user_id", VStr user_id);
         ("has_assumptions", VBool false);
         ("count", VInt 0);
         ("assumptions", VList []);
         ("formatted_text",
           VStr "No previous preferences found. Let's start fresh!") ]), st).
Proof.
  apply contains_false_get in Hmissing.
  assert (H : get_profile user_id st = (Ok (default_profile user_id), st))
    by (unfold_handlers; now rewrite Hmissing).
  cbn [handle]. unfold get_assumptions, bind. rewrite H. reflexivity.
Qed.

Lemma get_assumptions_unknown_user_witness :
  http_status (fst (handle (fun _ => "") (GetAssumptions "nobody") initial_store))
  = 200%Z.
Proof.
  rewrite (get_assumptions_unknown_user (fun _ => "") "nobody" initial_store
             eq_refl).
  reflexivity.
Defined.

(** X11: posting a profile and then asking for the assumptions of that key
    gives the assumptions of the posted profile, whatever the store held
    before. *)
Theorem get_assumptions_after_update_profile (py_str : value -> string)
    (user_id : string) (p : UserProfile.t) (st : store) :
  let st' := snd (update_profile user_id p st) in
  handle py_str (GetAssumptions user_id) st'
  = (Ok (assumptions_response user_id (Spec.assumptions p)), st').
Proof.
  intros st'. cbn [handle]. unfold get_assumptions, bind.
  assert (H : get_profile user_id st' = (Ok (UserProfile.dict p), st')).
  { subst st'. unfold_handlers. now rewrite PyDictFacts.get_set_eq. }
  rewrite H. unfold lift. now rewrite collect_assumptions_dict.
Qed.




Lemma bounded_nil n : bounded n [].
Proof. split; [simpl; lia | constructor]. Qed.

Lemma bounded_append n l text :
  bounded n l -> bounded (S n) (append l (preference text)).
Proof.
  intros [Hlen Hsrc]. unfold append. split.
  - rewrite length_app. simpl. lia.
  - apply Forall_app. split; [exact Hsrc | now repeat constructor].
Qed.

Lemma bounded_skip n l : bounded n l -> bounded (S n) l.
Proof. intros [Hlen Hsrc]. split; [lia | exact Hsrc]. Qed.

Lemma bounded_if n (c : bool) l text :
  bounded n l ->
  bounded (S n) (if c then append l (preference text) else l).
Proof. destruct c; [apply bounded_append | apply bounded_skip]. Qed.

Lemma bounded_if2 n (c1 c2 : bool) l text1 text2 :
  bounded n l ->
  bounded (S n) (if c1 then append l (preference text1)
                 else if c2 then append l (preference text2) else l).
Proof. destruct c1, c2; first [apply bounded_append | apply bounded_skip]. Qed.

Lemma bounded_if3 n (c1 c2 c3 : bool) l text1 text2 text3 :
  bounded n l ->
  bounded (S n) (if c1 then append l (preference text1)
                 else if c2 then append l (preference text2)
                 else if c3 then append l (preference text3) else l).
Proof.
  destruct c1, c2, c3; first [apply bounded_append | apply bounded_skip].
Qed.

(** X13: whatever the dictionary, when the seven blocks return they return
    at most seven assumptions, and each has the source
    [profile_preference]. *)
Theorem collect_assumptions_bounds (py_str : value -> string)
    (d : PyDict.t value) (l : list Assumption.t)
    (Hok : collect_assumptions py_str d = Ok l) :
  (length l <= 7)%nat
  /\ Forall (fun a => Assumption.source a = "profile_preference") l.
Proof.
  change (bounded 7 l).
  revert Hok. unfold collect_assumptions. cbv zeta.
  destruct (truthy (get_or VNone "preferred_transport" d));
    [destruct (subscript d "preferred_transport"); [|discriminate]|];
    (destruct (truthy (get_or (VList []) "food_preferences" d));
       [destruct (str_join ", " (get_or (VList []) "food_preferences" d));
          [|discriminate]|]);
    (destruct (truthy (get_or (VList []) "transport_dislikes" d));
       [destruct (str_join ", " (get_or (VList []) "transport_dislikes" d));
          [|discriminate]|]);
    intros [= <-];
    repeat first
      [ apply bounded_nil | apply bounded_if3 | apply bounded_if2
      | apply bounded_if | apply bounded_append ].
Qed.

Lemma collect_assumptions_bounds_witness :
  (length (Spec.assumptions sample_UserProfile) <= 7)%nat.
Proof.
  exact (proj1 (collect_assumptions_bounds (fun _ => "")
                  (UserProfile.dict sample_UserProfile)
                  (Spec.assumptions sample_UserProfile) eq_refl)).
Defined.

(** ** More on the slot merge *)

Lemma update_trip_slots_no_slots session_id slots st session :
  PyDict.get session_id (sessions st) = Some session ->
  (forall trip_slots, PyDict.get "trip_slots" session <> Some (VDict trip_slots)) ->
  snd (update_trip_slots session_id slots st) = st.
Proof.
  intros Hs Ht.
  unfold update_trip_slots, bind, read_sessions, raise. rewrite Hs.
  destruct (PyDict.get "trip_slots" session) as [[| | | | | |trip_slots]|];
    try reflexivity.
  now destruct (Ht trip_slots).
Qed.

(** The store after a merge, by cases on what is stored under the key. *)
Lemma update_trip_slots_cases session_id slots st :
  (exists session trip_slots,
     PyDict.get session_id (sessions st) = Some session
     /\ PyDict.get "trip_slots" session = Some (VDict trip_slots))
  \/ (forall payload, update_trip_slots session_id payload st
                      = (fst (update_trip_slots session_id slots st), st)).
Proof.
  destruct (PyDict.get session_id (sessions st)) as [session|] eqn:Hs.
  - destruct (PyDict.get "trip_slots" session) as [[| | | | | |trip_slots]|] eqn:Ht;
      try (right; intros payload;
           unfold update_trip_slots, bind, read_sessions, raise;
           rewrite Hs, Ht; reflexivity).
    left. now exists session, trip_slots.
  - right. intros payload.
    unfold update_trip_slots, bind, read_sessions, raise. now rewrite Hs.
Qed.

(** X14: merging the same slots a second time changes nothing more, and
    merging no slots at all changes nothing, on every store.  The slots are
    a dictionary, so no key occurs in them twice. *)
Theorem update_trip_slots_idempotent (session_id : string)
    (slots : PyDict.t value) (st : store) (Hslots : PyDict.wf slots) :
  snd (update_trip_slots session_id slots
         (snd (update_trip_slots session_id slots st)))
    = snd (update_trip_slots session_id slots st)
  /\ snd (update_trip_slots session_id [] st) = st.
Proof.
  destruct (update_trip_slots_cases session_id slots st)
    as [(session & old & Hs & Ht) | Hsame].
  - split.
    + rewrite (update_trip_slots_stored _ slots st _ _ Hs Ht). cbn [snd].
      erewrite update_trip_slots_stored;
        [|cbn [sessions]; apply PyDictFacts.get_set_eq
         |apply PyDictFacts.get_set_eq].
      cbn [snd user_profiles sessions].
      now rewrite PyDictMore.update_idempotent, !PyDictMore.set_set.
    + rewrite (update_trip_slots_stored _ [] st _ _ Hs Ht). cbn [snd].
      change (PyDict.update old []) with old.
      rewrite (PyDictMore.set_same "trip_slots" _ _ Ht).
      destruct st as [profiles ss]. cbn [user_profiles sessions] in *.
      f_equal. exact (PyDictMore.set_same _ _ _ Hs).
  - split.
    + rewrite (Hsame slots). cbn [snd]. now rewrite (Hsame slots).
    + now rewrite (Hsame []).
Qed.

Lemma update_trip_slots_idempotent_witness :
  let s := SessionState.mk "s1" "user_demo_123" TripSlots.default 0 "clarifying" in
  let st := snd (update_session s initial_store) in
  snd (update_trip_slots "s1" [("destination", VStr "Goa")]
         (snd (update_trip_slots "s1" [("destination", VStr "Goa")] st)))
  = snd (update_trip_slots "s1" [("destination", VStr "Goa")] st).
Proof.
  intros s st.
  assert (Hwf : PyDict.wf [("destination", VStr "Goa")]).
  { constructor; [simpl; tauto | constructor]. }
  exact (proj1 (update_trip_slots_idempotent "s1" [("destination", VStr "Goa")]
                  st Hwf)).
Defined.

(** X15: two merges in a row on a stored session of the running service:
    a key of the second slots has the value of the second, a key of the
    first only has the value of the first, and any other key has what it had
    before both. *)
Theorem update_trip_slots_twice (py_str : value -> string) (st : store)
    (session_id : string) (session slots1 slots2 : PyDict.t value)
    (Hreach : reachable py_str st)
    (Hstored : PyDict.get session_id (sessions st) = Some session)
    (Hslots1 : PyDict.wf slots1) (Hslots2 : PyDict.wf slots2) :
  let st2 :=
    snd (update_trip_slots session_id slots2
           (snd (update_trip_slots session_id slots1 st))) in
  exists old final session2,
    PyDict.get "trip_slots" session = Some (VDict old)
    /\ PyDict.get session_id (sessions st2) = Some session2
    /\ PyDict.get "trip_slots" session2 = Some (VDict final)
    /\ (forall k v, PyDict.get k slots2 = Some v -> PyDict.get k final = Some v)
    /\ (forall k v, PyDict.get k slots2 = None ->
                    PyDict.get k slots1 = Some v -> PyDict.get k final = Some v)
    /\ (forall k, PyDict.get k slots2 = None -> PyDict.get k slots1 = None ->
                  PyDict.get k final = PyDict.get k old).
Proof.
  intros st2.
  destruct (reachable_invariant py_str st Hreach) as [_ Hsessions].
  destruct (Hsessions session_id session Hstored) as [old Hold].
  exists old, (PyDict.update (PyDict.update old slots1) slots2),
    (PyDict.set "trip_slots"
       (VDict (PyDict.update (PyDict.update old slots1) slots2))
       (PyDict.set "trip_slots" (VDict (PyDict.update old slots1)) session)).
  subst st2.
  rewrite (update_trip_slots_stored _ slots1 st _ _ Hstored Hold). cbn [snd].
  erewrite update_trip_slots_stored;
    [|cbn [sessions]; apply PyDictFacts.get_set_eq
     |apply PyDictFacts.get_set_eq].
  cbn [snd sessions].
  split; [exact Hold|]. split; [apply PyDictFacts.get_set_eq|].
  split; [apply PyDictFacts.get_set_eq|]. split; [|split].
  - intros k v. now apply PyDictFacts.get_update_in.
  - intros k v H2 H1. rewrite (PyDictFacts.get_update_notin _ _ _ H2).
    now apply PyDictFacts.get_update_in.
  - intros k H2 H1. rewrite (PyDictFacts.get_update_notin _ _ _ H2).
    now apply PyDictFacts.get_update_notin.
Qed.

Lemma update_trip_slots_twice_witness :
  let s := SessionState.mk "s1" "user_demo_123" TripSlots.default 0 "clarifying" in
  let st := snd (handle (fun _ => "") (UpdateSession s) initial_store) in
  let st2 :=
    snd (update_trip_slots "s1" [("destination", VStr "Goa")]
           (snd (update_trip_slots "s1"
                   [("destination", VStr "Pune"); ("intent", VStr "beach")] st))) in
  exists session2,
    PyDict.get "s1" (sessions st2) = Some session2
    /\ exists final,
         PyDict.get "trip_slots" session2 = Some (VDict final)
         /\ PyDict.get "destination" final = Some (VStr "Goa")
         /\ PyDict.get "intent" final = Some (VStr "beach").
Proof.
  intros s st st2.
  assert (Hwf1 : PyDict.wf [("destination", VStr "Pune"); ("intent", VStr "beach")]).
  { repeat constructor; simpl; intuition discriminate. }
  assert (Hwf2 : PyDict.wf [("destination", VStr "Goa")]).
  { constructor; [simpl; tauto | constructor]. }
  destruct (update_trip_slots_twice (fun _ => "") st "s1" (SessionState.dict s)
              [("destination", VStr "Pune"); ("intent", VStr "beach")]
              [("destination", VStr "Goa")]
              (reachable_after_session _ s) eq_refl Hwf1 Hwf2)
    as (old & final & session2 & _ & Hget & Hfinal & H2 & H1 & _).
  exists session2. split; [exact Hget|].
  exists final. split; [exact Hfinal|]. split.
  - apply H2. reflexivity.
  - apply H1; reflexivity.
Defined.

(** ** The shape of what is answered *)

(** X16: in the running service the answer of [GET /session/{session_id}]
    always has the five fields of a session in their order, its
    [session_id] is the one asked for, and its [trip_slots] is a
    dictionary, whether the session is stored or the default is made up.
    (For profiles the like fails: the [user_id] of a stored profile is the
    one of the posted body.) *)
Theorem get_session_answer (py_str : value -> string) (st : store)
    (session_id : string) (Hreach : reachable py_str st) :
  exists d trip_slots,
    handle py_str (GetSession session_id) st = (Ok (VDict d), st)
    /\ PyDict.keys d
       = ["session_id"; "user_id"; "trip_slots"; "clarifier_count";
          "conversation_stage"]
    /\ PyDict.get "session_id" d = Some (VStr session_id)
    /\ PyDict.get "trip_slots" d = Some (VDict trip_slots).
Proof.
  destruct (reachable_service_invariant py_str st Hreach) as (_ & _ & _ & Hst).
  cbn [handle]. unfold get_session, bind, read_sessions, ret.
  destruct (PyDict.get session_id (sessions st)) as [session|] eqn:Hs.
  - destruct (Hst _ _ Hs) as (s & trip_slots & <- & -> & _).
    eexists. exists trip_slots. repeat split.
  - eexists. exists []. repeat split.
Qed.

Lemma get_session_answer_witness :
  exists d trip_slots,
    handle (fun _ => "") (GetSession "s1") initial_store = (Ok (VDict d), initial_store)
    /\ PyDict.keys d
       = ["session_id"; "user_id"; "trip_slots"; "clarifier_count";
          "conversation_stage"]
    /\ PyDict.get "session_id" d = Some (VStr "s1")
    /\ PyDict.get "trip_slots" d = Some (VDict trip_slots).
Proof.
  exact (get_session_answer (fun _ => "") initial_store "s1" (reachable_start _)).
Defined.

(** X17: in the running service the [trip_slots] of a stored session always
    has the nine fields of the slots model, however many merges went over
    it, and its [user_id], [clarifier_count] and [conversation_stage] are a
    string, a number and a string: a merge adds and overwrites slots and
    touches nothing else.  (The default made up for a missing session has
    none of the nine and a null [user_id].) *)
Theorem stored_session_fields (py_str : value -> string) (st : store)
    (session_id : string) (session : PyDict.t value)
    (Hreach : reachable py_str st)
    (Hstored : PyDict.get session_id (sessions st) = Some session) :
  exists trip_slots user_id clarifier_count conversation_stage,
    PyDict.get "trip_slots" session = Some (VDict trip_slots)
    /\ (forall k,
          In k ["destination"; "start_date"; "end_date"; "companions";
                "budget_level"; "budget_min"; "budget_max"; "intent";
                "constraints"] ->
          PyDict.contains k trip_slots = true)
    /\ PyDict.get "user_id" session = Some (VStr user_id)
    /\ PyDict.get "clarifier_count" session = Some (VInt clarifier_count)
    /\ PyDict.get "conversation_stage" session = Some (VStr conversation_stage).
Proof.
  destruct (reachable_service_invariant py_str st Hreach) as (_ & _ & _ & Hst).
  destruct (Hst _ _ Hstored) as (s & trip_slots & _ & -> & Hincl).
  exists trip_slots, (SessionState.user_id s), (SessionState.clarifier_count s),
    (SessionState.conversation_stage s).
  split; [reflexivity|]. split; [|repeat split].
  intros k Hk. apply PyDictMore.contains_keys. apply Hincl. exact Hk.
Qed.

Lemma stored_session_fields_witness :
  let s := SessionState.mk "s1" "user_demo_123" TripSlots.default 0 "clarifying" in
  let st :=
    snd (handle (fun _ => "")
           (UpdateTripSlots "s1" [("destination", VStr "Goa"); ("pets", VBool true)])
           (snd (handle (fun _ => "") (UpdateSession s) initial_store))) in
  exists session trip_slots,
    PyDict.get "s1" (sessions st) = Some session
    /\ PyDict.get "trip_slots" session = Some (VDict trip_slots)
    /\ PyDict.contains "constraints" trip_slots = true.
Proof.
  intros s st.
  assert (Hreach : reachable (fun _ => "") st).
  { apply reachable_step, reachable_after_session. }
  assert (Hget : exists session, PyDict.get "s1" (sessions st) = Some session)
    by (eexists; reflexivity).
  destruct Hget as [session Hget].
  destruct (stored_session_fields (fun _ => "") st "s1" session Hreach Hget)
    as (trip_slots & _ & _ & _ & Hslots & Hfields & _).
  exists session, trip_slots. split; [exact Hget|]. split; [exact Hslots|].
  apply Hfields. simpl. tauto.
Defined.

(** X18: in the running service the answer of [GET /profile/{user_id}] is
    always the dictionary of a profile model object: the twelve fields in
    their order, each of the type the model gives it. *)
Theorem get_profile_answer (py_str : value -> string) (st : store)
    (user_id : string) (Hreach : reachable py_str st) :
  exists p,
    handle py_str (GetProfile user_id) st = (Ok (VDict (UserProfile.dict p)), st)
    /\ PyDict.keys (UserProfile.dict p)
       = ["user_id"; "name"; "budget_style"; "preferred_transport";
          "no_early_flights"; "no_late_nights"; "walking_tolerance";
          "food_preferences"; "transport_dislikes"; "accommodation_dislikes";
          "typical_hotel_budget"; "total_trips_booked"].
Proof.
  destruct (get_profile_is_profile_dict user_id st
              (reachable_invariant py_str st Hreach)) as [p Hp].
  exists p. split; [|reflexivity].
  cbn [handle]. unfold bind. now rewrite Hp.
Qed.

Lemma get_profile_answer_witness :
  exists p,
    handle (fun _ => "") (GetProfile "user_demo_123") initial_store
    = (Ok (VDict (UserProfile.dict p)), initial_store)
    /\ PyDict.keys (UserProfile.dict p)
       = ["user_id"; "name"; "budget_style"; "preferred_transport";
          "no_early_flights"; "no_late_nights"; "walking_tolerance";
          "food_preferences"; "transport_dislikes"; "accommodation_dislikes";
          "typical_hotel_budget"; "total_trips_booked"].
Proof.
  exact (get_profile_answer (fun _ => "") initial_store "user_demo_123"
           (reachable_start _)).
Defined.

(** ** Reset and history *)

(** X19: a reset forgets everything that came before it: the store after a
    sequence of requests with a reset in it is the one that the requests
    after that reset leave when run from the start-up store. *)
Theorem run_after_reset (py_str : value -> string)
    (before after : list request) (st : store) :
  run py_str (before ++ ResetData :: after) st = run py_str after initial_store.
Proof.
  unfold run. rewrite fold_left_app. reflexivity.
Qed.
